(** * DeployShift backend: price cache, session store, chat pipeline, portfolio

    A shallow embedding of
      - [src/src/services/PriceCache.ts]   (module [PriceCache]),
      - [src/server.ts]                    (modules [Server], [Startup]),
      - [src/sdks/agent_sdks/shift_agent.ts] (modules [ShiftAgent], [Cli]),
    with the JavaScript values and effects they rely on (modules [Js], [Eff]).

    Conventions.  A JavaScript [number] is an IEEE 754 binary64 value
    ([spec_float] at precision 53).  A [Date] is its time value, an integer
    number of milliseconds.  A plain object used as a dictionary is a
    [gmap string _] of its own properties; members inherited from
    [Object.prototype] are modelled where the code reads a property under a
    caller-supplied name.  An [async] function is one atomic step from call
    to completion; what the outside world answers during the step (HTTP
    responses, clock readings, the language model, the wallet agent) is an
    explicit argument of the step. *)

From Stdlib Require Import ZArith String List Bool Lia.
From Stdlib Require Import Floats.SpecFloat.
From stdpp Require Import base option gmap strings list.

#[local] Set Warnings "-register-all".
#[local] Open Scope string_scope.

(* ===================================================================== *)
(** * JavaScript values *)
(* ===================================================================== *)

Module Js.

(** binary64 *)
Definition number : Type := spec_float.
Definition prec : Z := 53.
Definition emax : Z := 1024.

(** [a * b] on numbers *)
Definition mul (a b : number) : number := SFmul prec emax a b.

(** an integer literal such as [0] or [10] *)
Definition of_Z (z : Z) : number := binary_normalize prec emax z 0 false.

Definition zero : number := S754_zero false.

(** The strings [Number.prototype.toFixed] can return, kept as numerals:
    ["NaN"], ["Infinity"]/["-Infinity"], an optional ["-"] followed by the
    decimal digits of [n] with [digits] of them after the point, and, from
    1e21 on, the shortest round-tripping notation of the number itself. *)
Inductive numeral :=
| NumeralNaN
| NumeralInfinity (negative : bool)
| Fixed (negative : bool) (n : N) (digits : nat)
| Shortest (x : number).

(** [m * 2^e >= bound], exactly *)
Definition dyadic_ge (m : positive) (e : Z) (bound : Z) : bool :=
  match e with
  | Zneg d => (bound * 2 ^ Zpos d <=? Zpos m)%Z
  | _ => (bound <=? Zpos m * 2 ^ e)%Z
  end.

(** the integer [n] for which [n / 10^f - m * 2^e] is closest to zero,
    the larger one when two are equally close *)
Definition nearest_scaled (m : positive) (e : Z) (f : nat) : N :=
  let scaled := (Zpos m * 10 ^ Z.of_nat f)%Z in
  match e with
  | Zneg d => Z.to_N ((2 * scaled + 2 ^ Zpos d) / (2 * 2 ^ Zpos d))
  | _ => Z.to_N (scaled * 2 ^ e)
  end.

(** [x.toFixed(f)] for [0 <= f <= 100] (ECMA-262, Number.prototype.toFixed) *)
Definition toFixed (x : number) (f : nat) : numeral :=
  match x with
  | S754_nan => NumeralNaN
  | S754_infinity s => NumeralInfinity s
  | S754_zero _ => Fixed false 0 f
  | S754_finite s m e =>
      if dyadic_ge m e (10 ^ 21) then Shortest x
      else Fixed s (nearest_scaled m e f) f
  end.

(** [Number(str)] on such a string: the binary64 value nearest to the
    decimal, ties to even *)
Definition Number (str : numeral) : number :=
  match str with
  | NumeralNaN => S754_nan
  | NumeralInfinity s => S754_infinity s
  | Shortest x => x
  | Fixed s 0%N _ => S754_zero s
  | Fixed s (Npos n) f =>
      let '(q, e, l) :=
        SFdiv_core_binary prec emax (Zpos n) 0 (10 ^ Z.of_nat f) 0 in
      binary_round_aux prec emax s q e l
  end.

(** What [JSON.parse] can produce, and [undefined]. *)
Inductive value :=
| Undefined
| Null
| Boolean (b : bool)
| Num (x : number)
| Str (s : string)
| Arr (items : list value)
| Obj (fields : gmap string value).

(** ToBoolean *)
Definition truthy (v : value) : bool :=
  match v with
  | Undefined | Null => false
  | Boolean b => b
  | Num (S754_zero _) | Num S754_nan => false
  | Num _ => true
  | Str s => negb (String.eqb s "")
  | Arr _ | Obj _ => true
  end.

(** Thrown values: an [Error] object with its message. *)
Inductive exn :=
| Error (message : string)
| TypeError (message : string).

Definition message (e : exn) : string :=
  match e with Error m | TypeError m => m end.

Inductive outcome (A : Type) :=
| Returned (a : A)
| Thrown (e : exn).
Arguments Returned {A} a.
Arguments Thrown {A} e.

(** [v.name], for a [name] that no built-in prototype defines (the code
    reads [bitcoin], [ethereum], [solana], [usd], [usd_24h_change]):
    reading from [null] or [undefined] throws, an object answers with its
    own property, every other value with [undefined]. *)
Definition prop (v : value) (name : string) : outcome value :=
  match v with
  | Undefined | Null =>
      Thrown (TypeError ("Cannot read properties of null or undefined (reading '"
                         ++ name ++ "')"))
  | Obj fields => Returned (default Undefined (fields !! name))
  | _ => Returned Undefined
  end.

(** The property names every ordinary object inherits from
    [Object.prototype]. *)
Definition Object_prototype : list string :=
  [ "constructor"; "__defineGetter__"; "__defineSetter__"; "hasOwnProperty";
    "__lookupGetter__"; "__lookupSetter__"; "isPrototypeOf";
    "propertyIsEnumerable"; "toString"; "valueOf"; "__proto__";
    "toLocaleString" ].

End Js.

(* ===================================================================== *)
(** * Effectful code: state, exceptions and a log of external effects *)
(* ===================================================================== *)

Module Eff.
Import Js.

(** A computation over a state [S] that may throw and that emits events
    of type [E]. *)
Definition eff (S E A : Type) : Type := S -> outcome A * S * list E.

Definition ret {S E A} (a : A) : eff S E A := fun s => (Returned a, s, []).

Definition throw {S E A} (e : exn) : eff S E A := fun s => (Thrown e, s, []).

Definition bind {S E A B} (c : eff S E A) (k : A -> eff S E B) : eff S E B :=
  fun s =>
    match c s with
    | (Returned a, s1, ev1) =>
        let '(r, s2, ev2) := k a s1 in (r, s2, (ev1 ++ ev2)%list)
    | (Thrown e, s1, ev1) => (Thrown e, s1, ev1)
    end.

(** [try { c } catch (error) { handler error }] *)
Definition try_catch {S E A} (c : eff S E A) (handler : exn -> eff S E A)
  : eff S E A :=
  fun s =>
    match c s with
    | (Returned a, s1, ev1) => (Returned a, s1, ev1)
    | (Thrown e, s1, ev1) =>
        let '(r, s2, ev2) := handler e s1 in (r, s2, (ev1 ++ ev2)%list)
    end.

Definition get {S E} : eff S E S := fun s => (Returned s, s, []).
Definition put {S E} (s' : S) : eff S E unit := fun _ => (Returned tt, s', []).
Definition emit {S E} (e : E) : eff S E unit := fun s => (Returned tt, s, [e]).

(** the result of an awaited external call, or of a property read *)
Definition await {S E A} (o : outcome A) : eff S E A :=
  match o with
  | Returned a => ret a
  | Thrown e => throw e
  end.

(** [Promise.all(items.map(async item => f item))]: the results in list
    order, each callback with the position of its item; the events of the
    callbacks are listed callback by callback *)
Fixpoint for_each {S E A B} (f : nat -> A -> eff S E B) (i : nat)
  (items : list A) : eff S E (list B) :=
  match items with
  | [] => ret []
  | item :: rest =>
      bind (f i item) (fun y =>
      bind (for_each f (Datatypes.S i) rest) (fun ys => ret (y :: ys)))
  end.

Definition result {S E A} (r : outcome A * S * list E) : outcome A := r.1.1.
Definition state {S E A} (r : outcome A * S * list E) : S := r.1.2.
Definition events {S E A} (r : outcome A * S * list E) : list E := r.2.

End Eff.

Declare Scope eff_scope.
Delimit Scope eff_scope with eff.
Notation "x <- c ;; k" := (Eff.bind c (fun x => k))
  (at level 20, c at level 99, k at level 200, only parsing) : eff_scope.
Notation "c ;; k" := (Eff.bind c (fun _ => k))
  (at level 100, k at level 200, only parsing, right associativity) : eff_scope.

(* ===================================================================== *)
(** * src/src/services/PriceCache.ts *)
(* ===================================================================== *)

Module PriceCache.
Import Js Eff.
#[local] Open Scope eff_scope.

(** one slot of [interface PriceCache]; the fields hold whatever the
    payload held, [last_updated] the time value of its [Date] *)
Record entry := {
  usd : value;
  usd_24h_change : value;
  last_updated : Z
}.

(** [class PriceCacheService]: the [cache] field.  The interval timer is
    the source of later refresh attempts and holds no data. *)
Record PriceCacheService := {
  cache : gmap string entry
}.

Definition CACHE_DURATION : Z := 60 * 60 * 1000.

(** The effects of the service.  A console event carries the text of
    the message; the values printed after it are left out. *)
Inductive effect :=
| console_log (text : string)
| console_error (text : string)
| http_get (url : string).

(** an HTTP response: what [response.json()] resolves to *)
Record response := {
  json : outcome value
}.

(** What the outside world does during one call of [updatePrices]: the
    time at which it is called, what [fetch] resolves to, and the three
    readings of the clock by [new Date()]. *)
Record attempt := {
  started : Z;
  fetched : outcome response;
  now_BTC : Z;
  now_ETH : Z;
  now_SOL : Z
}.

Definition coingecko_url : string :=
  "https://api.coingecko.com/api/v3/simple/price?ids=bitcoin,ethereum,solana&vs_currencies=usd&include_24hr_change=true".

Definition fetch (att : attempt) (url : string)
  : eff PriceCacheService effect response :=
  emit (http_get url) ;; await (fetched att).

(** what [this.cache[symbol]] can evaluate to *)
Inductive member :=
| PriceData (e : entry)
| Inherited (name : string).

(** [new PriceCacheService()]: the field initialiser [cache = {}].  The
    constructor's own [updatePrices()] and the timer's later ones are the
    attempts of [refresh]. *)
Definition new_PriceCacheService : PriceCacheService := {| cache := ∅ |}.

(** [getPrice(symbol) { return this.cache[symbol]; }]; [None] is
    [undefined] *)
Definition getPrice (symbol : string)
  : eff PriceCacheService effect (option member) :=
  this <- get ;;
  ret match cache this !! symbol with
      | Some e => Some (PriceData e)
      | None =>
          if bool_decide (symbol ∈ Object_prototype)
          then Some (Inherited symbol) else None
      end.

(** [!data.bitcoin || !data.ethereum || !data.solana] *)
Definition invalid_format (data : value)
  : eff PriceCacheService effect bool :=
  bitcoin <- await (prop data "bitcoin") ;;
  if negb (truthy bitcoin) then ret true else
  ethereum <- await (prop data "ethereum") ;;
  if negb (truthy ethereum) then ret true else
  solana <- await (prop data "solana") ;;
  ret (negb (truthy solana)).

(** [{ usd: data.<id>.usd, usd_24h_change: data.<id>.usd_24h_change,
       last_updated: new Date() }] *)
Definition entry_of (data : value) (id : string) (now : Z)
  : eff PriceCacheService effect entry :=
  coin <- await (prop data id) ;;
  price <- await (prop coin "usd") ;;
  coin' <- await (prop data id) ;;
  change <- await (prop coin' "usd_24h_change") ;;
  ret {| usd := price; usd_24h_change := change; last_updated := now |}.

Definition updatePrices (att : attempt)
  : eff PriceCacheService effect unit :=
  try_catch
    (emit (console_log "Updating price cache...") ;;
     response <- fetch att coingecko_url ;;
     data <- await (json response) ;;
     emit (console_log "Raw CoinGecko Response:") ;;
     invalid <- invalid_format data ;;
     if (invalid : bool) then
       emit (console_error "Invalid response format from CoinGecko:") ;;
       ret tt
     else
       btc <- entry_of data "bitcoin" (now_BTC att) ;;
       eth <- entry_of data "ethereum" (now_ETH att) ;;
       sol <- entry_of data "solana" (now_SOL att) ;;
       put {| cache := <["BTC" := btc]> (<["ETH" := eth]> {["SOL" := sol]}) |})
    (fun error => emit (console_error "Failed to update price cache:")).

(** The service after a series of refresh attempts, oldest first. *)
Definition refresh (atts : list attempt) (this : PriceCacheService)
  : PriceCacheService :=
  fold_left (fun s att => state (updatePrices att s)) atts this.

(** ** Vocabulary of the statements about the price cache *)

(** the symbols the cache tracks, and their ids in the payload *)
Definition symbols : list string := [ "BTC"; "ETH"; "SOL" ].
Definition coin_ids : list string := [ "bitcoin"; "ethereum"; "solana" ].

(** the payload of an attempt whose request and JSON parsing succeed *)
Definition payload (att : attempt) : option value :=
  match fetched att with
  | Returned r =>
      match json r with
      | Returned data => Some data
      | Thrown _ => None
      end
  | Thrown _ => None
  end.

(** the property [id] of a payload that is an object having it *)
Definition own (data : value) (id : string) : option value :=
  match data with
  | Obj fields => fields !! id
  | _ => None
  end.

(** the payload omits a tracked symbol *)
Definition omits_tracked (data : value) : Prop :=
  exists id, id ∈ coin_ids /\ own data id = None.

(** the payload has an entry for every tracked symbol *)
Definition contains_all (data : value) : Prop :=
  forall id, id ∈ coin_ids -> is_Some (own data id).

(** the payload passes the check of [updatePrices] *)
Definition passes_validation (data : value) : bool :=
  forallb (fun id => truthy (default Undefined (own data id))) coin_ids.

(** the attempt fetches a payload that passes the check *)
Definition succeeds (att : attempt) : bool :=
  match payload att with
  | Some data => passes_validation data
  | None => false
  end.

(** the field [name] of the payload's object for [id] *)
Definition quoted (data : value) (id name : string) : value :=
  match own data id with
  | Some (Obj coin) => default Undefined (coin !! name)
  | _ => Undefined
  end.

(** the entries a successful attempt installs *)
Definition installed (data : value) (att : attempt) : gmap string entry :=
  <["BTC" := {| usd := quoted data "bitcoin" "usd";
               usd_24h_change := quoted data "bitcoin" "usd_24h_change";
               last_updated := now_BTC att |}]>
  (<["ETH" := {| usd := quoted data "ethereum" "usd";
                usd_24h_change := quoted data "ethereum" "usd_24h_change";
                last_updated := now_ETH att |}]>
   {["SOL" := {| usd := quoted data "solana" "usd";
               usd_24h_change := quoted data "solana" "usd_24h_change";
               last_updated := now_SOL att |}]}).

(** the service after an attempt, read off the payload: all entries are
    replaced when the payload passes the check, none otherwise *)
Definition refreshed (att : attempt) (this : PriceCacheService)
  : PriceCacheService :=
  match payload att with
  | Some data =>
      if passes_validation data then {| cache := installed data att |}
      else this
  | None => this
  end.

(** no reading of the clock during the attempt is earlier than [t] *)
Definition reads_from (t : Z) (att : attempt) : Prop :=
  (t <= now_BTC att /\ t <= now_ETH att /\ t <= now_SOL att)%Z.

(** a number that is zero or more *)
Definition non_negative (v : value) : bool :=
  match v with
  | Num x => SFleb zero x
  | _ => false
  end.

(** the price entry behind an answer of [getPrice], if it is one *)
Definition price_entry (answer : outcome (option member)) : option entry :=
  match answer with
  | Returned (Some (PriceData e)) => Some e
  | _ => None
  end.

End PriceCache.

(* ===================================================================== *)
(** * The model-invocation capability ([streamText] of the package [ai]) *)
(* ===================================================================== *)

Module Ai.
Import Js.

(** the argument of [streamText({ ... })], over the type of a tool set *)
Record options (T : Type) := {
  prompt : string;
  tools : T;
  model : string;
  temperature : number;
  system : string;
  maxSteps : nat
}.
Arguments prompt {T} _.
Arguments tools {T} _.
Arguments model {T} _.
Arguments temperature {T} _.
Arguments system {T} _.
Arguments maxSteps {T} _.

Inductive message :=
| system_message (text : string)
| user_message (text : string)
| assistant_message (fragments : list string)
| tool_message (name : string) (observation : outcome value).

(** what the language model emits in one step, given the context *)
Inductive step :=
| final_answer (fragments : list string)
| tool_call (fragments : list string) (name : string) (args : value)
| model_failure (e : exn).

(** The outside world of one invocation: the language model, and what
    calling a tool of the bound set does. *)
Record world (T : Type) := {
  llm : list message -> step;
  dispatch : T -> string -> value -> outcome value
}.
Arguments llm {T} _ _.
Arguments dispatch {T} _ _ _ _.

(** [response.textStream]: the fragments, then the end of the stream or
    the error that ends it *)
Record text_stream := {
  fragments : list string;
  failure : option exn;
  steps : nat
}.

(** Modelled from the spec: the body of [streamText], which belongs to the
    package [ai] and is not among the sources.  A loop of model step,
    optional tool dispatch and context update, capped at [budget]
    iterations; it ends on a final answer or when the budget is used up.
    A tool call is dispatched before the next step, and its result, also a
    failure, is fed back into the context; an error of the model itself
    ends the stream with that error. *)
Fixpoint run_steps {T} (w : world T) (bound : T) (budget : nat)
  (context : list message) : text_stream :=
  match budget with
  | O => {| fragments := []; failure := None; steps := 0 |}
  | S budget' =>
      match llm w context with
      | final_answer text =>
          {| fragments := text; failure := None; steps := 1 |}
      | tool_call text name args =>
          let observation := dispatch w bound name args in
          let rest :=
            run_steps w bound budget'
              (context ++ [assistant_message text;
                           tool_message name observation])%list in
          {| fragments := (text ++ fragments rest)%list;
             failure := failure rest;
             steps := S (steps rest) |}
      | model_failure e =>
          {| fragments := []; failure := Some e; steps := 1 |}
      end
  end.

(** Modelled from the spec: [streamText(options)], see [run_steps]. *)
Definition streamText {T} (w : world T) (o : options T) : text_stream :=
  run_steps w (tools o) (maxSteps o)
    [system_message (system o); user_message (prompt o)].

End Ai.

(* ===================================================================== *)
(** * src/server.ts *)
(* ===================================================================== *)

Module Server.
Import Js Eff.
#[local] Open Scope eff_scope.

(** [process.env], as far as the handlers read it *)
Module process_env.
Record t := {
  OPENAI_API_KEY : string;
  HELIUS_API_KEY : string;
  RPC_URL : string
}.
End process_env.

Record Config := {
  OPENAI_API_KEY : string;
  HELIUS_API_KEY : string
}.

(** Modelled from the spec: the class [SolanaAgentKit] is imported from
    [./src], which is not among the sources.  A capability handle bound to
    a wallet key and a connection endpoint; [identity] tells the objects
    created by [new] apart. *)
Record SolanaAgentKit := {
  identity : nat;
  wallet_address : string;
  rpc_url : string;
  config : Config
}.

(** Modelled from the spec: [createVercelAITools] is imported from
    [./src], which is not among the sources.  The callable operations
    derived from one agent and bound to it. *)
Record VercelAITools := {
  bound_to : SolanaAgentKit
}.

Definition createVercelAITools (agent : SolanaAgentKit) : VercelAITools :=
  {| bound_to := agent |}.

(** a value of [userSessions]: [{ agent, tools }] *)
Record Session := {
  agent : SolanaAgentKit;
  tools : VercelAITools
}.

(** What the wallet agent answers to [get_token_balance()]. *)
Module Wallet.
Record token := {
  tokenAddress : string;
  name : string;
  symbol : string;
  balance : number
}.
Record balances := {
  sol : number;
  tokens : list token
}.
End Wallet.

(** The body of a portfolio response. *)
Module Snapshot.
Record token_row := {
  token : string;
  symbol : string;
  balance : number;
  usdValue : number
}.
Record quote := {
  price : value;
  change : value
}.
Record watchlist_block := {
  BTC : quote;
  ETH : quote;
  SOL : quote
}.
Record response := {
  sol : number;
  solPrice : number;
  solUsdValue : number;
  tokens : list token_row;
  watchlist : watchlist_block
}.
End Snapshot.

(** What the agent of a session answers during one portfolio request.
    [fetchTokenPrice i address] is the call made for the token at position
    [i] of the balance list. *)
Record agent_world := {
  get_token_balance : outcome Wallet.balances;
  getPythPriceFeedID : string -> outcome string;
  getPythPrice : string -> outcome number;
  fetchTokenPrice : nat -> string -> outcome number
}.

(** the bodies passed to [res.json] *)
Inductive body :=
| success (flag : bool)
| chat_response (response : string)
| error (message : string)
| signature_request (transaction : value) (requiresSignature : bool)
| portfolio (snapshot : Snapshot.response).

Record http_response := {
  status : nat;
  json : body
}.

Definition res_json (b : body) : http_response :=
  {| status := 200; json := b |}.
Definition res_status_json (code : nat) (b : body) : http_response :=
  {| status := code; json := b |}.

(** The module-level state: [userSessions], [priceCache], and the number
    of agent objects created so far. *)
Record server := {
  userSessions : gmap string Session;
  priceCache : PriceCache.PriceCacheService;
  allocated : nat
}.

(** The effects of a handler.  A console event carries the text of the
    message without line breaks; the values printed after it are left
    out. *)
Inductive effect :=
| console_log (text : string)
| console_error (text : string)
| stream_text (o : Ai.options VercelAITools)
| agent_call (on : SolanaAgentKit) (method : string)
| price_cache (e : PriceCache.effect).

(** a method call on [priceCache] *)
Definition on_priceCache {A}
  (c : eff PriceCache.PriceCacheService PriceCache.effect A)
  : eff server effect A :=
  fun s =>
    let '(r, cache', ev) := c (priceCache s) in
    (r,
     {| userSessions := userSessions s;
        priceCache := cache';
        allocated := allocated s |},
     map price_cache ev).

(** [new SolanaAgentKit(publicKey, rpc_url, config)] *)
Definition new_SolanaAgentKit (publicKey rpc : string) (c : Config)
  : eff server effect SolanaAgentKit :=
  s <- get ;;
  put {| userSessions := userSessions s;
         priceCache := priceCache s;
         allocated := S (allocated s) |} ;;
  ret {| identity := allocated s;
         wallet_address := publicKey;
         rpc_url := rpc;
         config := c |}.

(** [userSessions.set(key, session)] *)
Definition userSessions_set (key : string) (session : Session)
  : eff server effect unit :=
  s <- get ;;
  put {| userSessions := <[key := session]> (userSessions s);
         priceCache := priceCache s;
         allocated := allocated s |}.

(** [userSessions.get(key)] *)
Definition userSessions_get (key : string)
  : eff server effect (option Session) :=
  s <- get ;; ret (userSessions s !! key).

(** [!s] for a string [s] *)
Definition falsy (s : string) : bool := negb (truthy (Str s)).

(** [app.post('/api/init-session', ...)] *)
Definition init_session (env : process_env.t) (publicKey : string)
  : eff server effect http_response :=
  try_catch
    (emit (console_log "1. Received init-session request:") ;;
     (if falsy publicKey then
        emit (console_error "2. Missing public key in request") ;;
        throw (Error "Public key is required")
      else ret tt) ;;
     emit (console_log "3. Creating SolanaAgentKit instance...") ;;
     solanaAgent <-
       new_SolanaAgentKit publicKey (process_env.RPC_URL env)
         {| OPENAI_API_KEY := process_env.OPENAI_API_KEY env;
            HELIUS_API_KEY := process_env.HELIUS_API_KEY env |} ;;
     emit (console_log "4. Storing session for public key:") ;;
     userSessions_set publicKey
       {| agent := solanaAgent; tools := createVercelAITools solanaAgent |} ;;
     emit (console_log "5. Session initialized successfully") ;;
     ret (res_json (success true)))
    (fun e =>
       emit (console_error "Error in init-session:") ;;
       ret (res_status_json 500 (error (Js.message e)))).

(** the literal [0.7] *)
Definition temperature_0_7 : number :=
  S754_finite false 6305039478318694 (-53).

Definition chat_system : string :=
  "You are a helpful agent that can interact onchain using the Solana Agent Kit...".

(** the options object of the [streamText] call in the chat handler *)
Definition chat_options (message : string) (session : Session)
  : Ai.options VercelAITools :=
  {| Ai.prompt := message;
     Ai.tools := tools session;
     Ai.model := "gpt-4o-mini";
     Ai.temperature := temperature_0_7;
     Ai.system := chat_system;
     Ai.maxSteps := 10 |}.

(** [for await (const chunk of response.textStream) fullResponse += chunk] *)
Definition collect (stream : Ai.text_stream) : eff server effect string :=
  let fullResponse :=
    fold_left (fun acc chunk => acc ++ chunk) (Ai.fragments stream) "" in
  match Ai.failure stream with
  | None => ret fullResponse
  | Some e => throw e
  end.

(** [app.post('/api/chat', ...)] *)
Definition chat (w : Ai.world VercelAITools) (message publicKey : string)
  : eff server effect http_response :=
  try_catch
    (emit (console_log "1. Received chat request:") ;;
     (if falsy message || falsy publicKey then
        emit (console_error "2. Missing message or public key") ;;
        throw (Error "Message and public key are required")
      else ret tt) ;;
     emit (console_log "3. Looking up session for public key:") ;;
     found <- userSessions_get publicKey ;;
     match found with
     | None =>
         emit (console_error "4. Session not found for public key:") ;;
         throw (Error "Session not found - please connect wallet first")
     | Some session =>
         emit (console_log "5. Processing message with AI...") ;;
         emit (stream_text (chat_options message session)) ;;
         fullResponse <- collect (Ai.streamText w (chat_options message session)) ;;
         emit (console_log "6. AI response generated successfully") ;;
         ret (res_json (chat_response fullResponse))
     end)
    (fun e =>
       emit (console_error "Error in chat endpoint:") ;;
       ret (res_status_json 500 (error (Js.message e)))).

(** [app.post('/api/sign-transaction', ...)] *)
Definition sign_transaction (transaction : value) (publicKey : string)
  : eff server effect http_response :=
  try_catch
    (found <- userSessions_get publicKey ;;
     match found with
     | None => throw (Error "Session not found")
     | Some _ => ret (res_json (signature_request transaction true))
     end)
    (fun e => ret (res_status_json 500 (error (Js.message e)))).

(** a call of a method of the session's agent *)
Definition ask {A} (session : Session) (method : string) (answer : outcome A)
  : eff server effect A :=
  emit (agent_call (agent session) method) ;; await answer.

(** the callback of [balances.tokens.map] *)
Definition format_token (a : agent_world) (session : Session)
  (i : nat) (token : Wallet.token) : eff server effect Snapshot.token_row :=
  usdValue <-
    (if String.eqb (Wallet.symbol token) "USDC" then
       ret (Wallet.balance token)
     else
       try_catch
         (price <- ask session "fetchTokenPrice"
                     (fetchTokenPrice a i (Wallet.tokenAddress token)) ;;
          emit (console_log ("Price for " ++ Wallet.symbol token ++ ":")) ;;
          ret (mul (Wallet.balance token) price))
         (fun err =>
            emit (console_log
                    ("Failed to get price for " ++ Wallet.symbol token ++ ":")) ;;
            ret zero)) ;;
  emit (console_log ("Processing token " ++ Wallet.symbol token ++ ":")) ;;
  ret {| Snapshot.token := Wallet.symbol token;
         Snapshot.symbol := Wallet.name token;
         Snapshot.balance := Number (toFixed (Wallet.balance token) 8);
         Snapshot.usdValue := Number (toFixed usdValue 2) |}.

(** [v || 0] *)
Definition or_zero (v : value) : value :=
  if truthy v then v else Num zero.

(** [{ price: m?.usd || 0, change: m?.usd_24h_change || 0 }] *)
Definition quote_of (m : option PriceCache.member) : Snapshot.quote :=
  let field (f : PriceCache.entry -> value) :=
    match m with
    | None => Undefined
    | Some (PriceCache.PriceData e) => f e
    | Some (PriceCache.Inherited _) => Undefined
    end in
  {| Snapshot.price := or_zero (field PriceCache.usd);
     Snapshot.change := or_zero (field PriceCache.usd_24h_change) |}.

(** [app.get('/api/portfolio/:publicKey', ...)] *)
Definition get_portfolio (a : agent_world) (publicKey : string)
  : eff server effect http_response :=
  try_catch
    (emit (console_log "=== Portfolio Request Start ===") ;;
     emit (console_log "Public Key:") ;;
     found <- userSessions_get publicKey ;;
     match found with
     | None => throw (Error "Session not found")
     | Some session =>
         emit (console_log "1. Fetching wallet balances...") ;;
         balances <- ask session "get_token_balance" (get_token_balance a) ;;
         emit (console_log "Wallet Balances Response:") ;;
         emit (console_log "2. Fetching SOL price from Pyth...") ;;
         solPriceFeedID <-
           ask session "getPythPriceFeedID" (getPythPriceFeedID a "SOL") ;;
         solPrice <-
           ask session "getPythPrice" (getPythPrice a solPriceFeedID) ;;
         emit (console_log "SOL Price from Pyth:") ;;
         let solBalance := Number (toFixed (Wallet.sol balances) 8) in
         let solUsdValue := Number (toFixed (mul solBalance solPrice) 2) in
         emit (console_log "SOL Balance:") ;;
         emit (console_log "Calculated SOL USD Value:") ;;
         emit (console_log "3. Processing token prices...") ;;
         formattedTokens <-
           for_each (format_token a session) 0 (Wallet.tokens balances) ;;
         emit (console_log "5. Fetching watchlist prices...") ;;
         btc <- on_priceCache (PriceCache.getPrice "BTC") ;;
         eth <- on_priceCache (PriceCache.getPrice "ETH") ;;
         sol <- on_priceCache (PriceCache.getPrice "SOL") ;;
         emit (console_log "Watchlist prices:") ;;
         emit (console_log "6. Final Response:") ;;
         emit (console_log "=== Portfolio Request End ===") ;;
         ret (res_json (portfolio
           {| Snapshot.sol := solBalance;
              Snapshot.solPrice := solPrice;
              Snapshot.solUsdValue := solUsdValue;
              Snapshot.tokens := formattedTokens;
              Snapshot.watchlist :=
                {| Snapshot.BTC := quote_of btc;
                   Snapshot.ETH := quote_of eth;
                   Snapshot.SOL := quote_of sol |} |}))
     end)
    (fun e =>
       emit (console_error "=== Portfolio Error ===") ;;
       emit (console_error "Error details:") ;;
       emit (console_error "=== Error End ===") ;;
       ret (res_status_json 500 (error (Js.message e)))).

(** What reaches the process: the four routes, and the refresh attempts
    of the price cache. *)
Inductive request :=
| post_init_session (env : process_env.t) (publicKey : string)
| post_chat (w : Ai.world VercelAITools) (message publicKey : string)
| post_sign_transaction (transaction : value) (publicKey : string)
| get_api_portfolio (a : agent_world) (publicKey : string)
| price_refresh (att : PriceCache.attempt).

Definition handle (r : request) : eff server effect (option http_response) :=
  match r with
  | post_init_session env k => res <- init_session env k ;; ret (Some res)
  | post_chat w m k => res <- chat w m k ;; ret (Some res)
  | post_sign_transaction t k => res <- sign_transaction t k ;; ret (Some res)
  | get_api_portfolio a k => res <- get_portfolio a k ;; ret (Some res)
  | price_refresh att =>
      on_priceCache (PriceCache.updatePrices att) ;; ret None
  end.

(** the state at start-up: [new Map()], [new PriceCacheService()] *)
Definition boot : server :=
  {| userSessions := ∅;
     priceCache := PriceCache.new_PriceCacheService;
     allocated := 0 |}.

(** the state after serving a series of requests, oldest first *)
Definition serve (requests : list request) (s : server) : server :=
  fold_left (fun s r => state (handle r s)) requests s.

(** ** Vocabulary of the statements about the server *)

(** the [streamText] calls among the effects of a step *)
Definition invocations (evs : list effect)
  : list (Ai.options VercelAITools) :=
  omap (fun ev => match ev with stream_text o => Some o | _ => None end) evs.

(** the two responses that report a missing session *)
Definition SessionNotFound (r : http_response) : Prop :=
  r = res_status_json 500
        (error "Session not found - please connect wallet first")
  \/ r = res_status_json 500 (error "Session not found").

(** the response that reports a missing request field of the chat route *)
Definition MissingParameter : http_response :=
  res_status_json 500 (error "Message and public key are required").

(** the key was never passed to the init route *)
Definition never_initialised (k : string) (requests : list request) : Prop :=
  forall env, post_init_session env k ∉ requests.

(** the row of a token, from the token and the outcome of the price
    lookup made for it *)
Definition token_row_of (lookup : outcome number) (t : Wallet.token)
  : Snapshot.token_row :=
  let usdValue :=
    if String.eqb (Wallet.symbol t) "USDC" then Wallet.balance t
    else match lookup with
         | Returned price => mul (Wallet.balance t) price
         | Thrown _ => zero
         end in
  {| Snapshot.token := Wallet.symbol t;
     Snapshot.symbol := Wallet.name t;
     Snapshot.balance := Number (toFixed (Wallet.balance t) 8);
     Snapshot.usdValue := Number (toFixed usdValue 2) |}.

(** the rows of the tokens of a balance list *)
Definition token_rows (a : agent_world) (tokens : list Wallet.token)
  : list Snapshot.token_row :=
  imap (fun i t => token_row_of (fetchTokenPrice a i (Wallet.tokenAddress t)) t)
       tokens.

(** the body of the portfolio response, from the answers of the agent and
    the state of the price cache *)
Definition snapshot_of (a : agent_world) (s : server)
  (balances : Wallet.balances) (solPrice : number) : Snapshot.response :=
  let solBalance := Number (toFixed (Wallet.sol balances) 8) in
  let cached sym := result (PriceCache.getPrice sym (priceCache s)) in
  let quote sym :=
    quote_of match cached sym with Returned m => m | Thrown _ => None end in
  {| Snapshot.sol := solBalance;
     Snapshot.solPrice := solPrice;
     Snapshot.solUsdValue := Number (toFixed (mul solBalance solPrice) 2);
     Snapshot.tokens := token_rows a (Wallet.tokens balances);
     Snapshot.watchlist :=
       {| Snapshot.BTC := quote "BTC";
          Snapshot.ETH := quote "ETH";
          Snapshot.SOL := quote "SOL" |} |}.

(** the sessions of a state are those the init route makes: under a
    non-empty key, with an agent for that key created earlier, and with
    the tools derived from that agent *)
Definition well_formed (s : server) : Prop :=
  forall k session,
    userSessions s !! k = Some session ->
    falsy k = false /\
    identity (agent session) < allocated s /\
    wallet_address (agent session) = k /\
    tools session = createVercelAITools (agent session).

End Server.

(* ===================================================================== *)
(** * src/sdks/agent_sdks/shift_agent.ts *)
(* ===================================================================== *)

Module ShiftAgent.
Import Js.

Definition system_prompt : string :=
  "You are a helpful agent that can interact onchain using the Solana Agent Kit. You are
        empowered to interact onchain using your tools. If you ever need funds, you can request them from the
        faucet. If not, you can provide your wallet details and request funds from the user. If there is a 5XX
        (internal) HTTP error code, ask the user to try again later. If someone asks you to do something you
        can't do with your currently available tools, you must say so, and encourage them to implement it
        themselves using the Solana Agent Kit, recommend they go to https://www.solanaagentkit.xyz for more information. Be
        concise and helpful with your responses. Refrain from restating your tools' descriptions unless it is explicitly requested.".

(** The options object [runChat] hands to [streamText] for one line of
    user input; [tools] is the tool set made once before the loop. *)
Definition runChat_options {T} (tools : T) (userInput : string)
  : Ai.options T :=
  {| Ai.prompt := userInput;
     Ai.tools := tools;
     Ai.model := "gpt-4o-mini";
     Ai.temperature := Server.temperature_0_7;
     Ai.system := system_prompt;
     Ai.maxSteps := 10 |}.

End ShiftAgent.

(* ===================================================================== *)
(** * Concrete inputs *)
(* ===================================================================== *)

Module Samples.
Import Js PriceCache Server.

(** [{usd: ..., usd_24h_change: ...}] *)
Definition coin (usd change : number) : value :=
  Obj (<["usd" := Num usd]> {["usd_24h_change" := Num change]}).

(** [{bitcoin: ..., ethereum: ..., solana: ...}] *)
Definition quotes (bitcoin ethereum solana : value) : value :=
  Obj (<["bitcoin" := bitcoin]>
       (<["ethereum" := ethereum]> {["solana" := solana]})).

(** [{bitcoin:{usd:50000,usd_24h_change:1.5},
      ethereum:{usd:3000,usd_24h_change:-2.0},
      solana:{usd:100,usd_24h_change:5.0}}] *)
Definition feed : value :=
  quotes (coin (of_Z 50000) (Number (Fixed false 15 1)))
         (coin (of_Z 3000) (of_Z (-2)))
         (coin (of_Z 100) (of_Z 5)).

(** the same with [bitcoin: {usd: -1, usd_24h_change: 0}] *)
Definition feed_negative : value :=
  quotes (coin (of_Z (-1)) zero)
         (coin (of_Z 3000) (of_Z (-2)))
         (coin (of_Z 100) (of_Z 5)).

(** [{ethereum: ..., solana: ...}], as when one coin is missing *)
Definition feed_incomplete : value :=
  Obj (<["ethereum" := coin (of_Z 3000) (of_Z (-2))]>
       {["solana" := coin (of_Z 100) (of_Z 5)]}).

(** an attempt called at [t] whose request answers [data] at [t + 250] *)
Definition attempt_at (t : Z) (data : value) : attempt :=
  {| started := t;
     fetched := Returned {| PriceCache.json := Returned data |};
     now_BTC := t + 250; now_ETH := t + 250; now_SOL := t + 250 |}.

(** an attempt whose request is rejected *)
Definition attempt_offline (t : Z) : attempt :=
  {| started := t;
     fetched := Thrown (TypeError "fetch failed");
     now_BTC := t + 250; now_ETH := t + 250; now_SOL := t + 250 |}.

(** two environments that differ in the RPC endpoint *)
Definition env : process_env.t :=
  {| process_env.OPENAI_API_KEY := "sk-test";
     process_env.HELIUS_API_KEY := "helius-test";
     process_env.RPC_URL := "https://rpc.example/one" |}.

Definition env' : process_env.t :=
  {| process_env.OPENAI_API_KEY := "sk-test";
     process_env.HELIUS_API_KEY := "helius-test";
     process_env.RPC_URL := "https://rpc.example/two" |}.

(** a model that answers at once, in two fragments *)
Definition fixed_reply : Ai.world VercelAITools :=
  {| Ai.llm := fun _ => Ai.final_answer ["Your balance is "; "1.5 SOL"];
     Ai.dispatch := fun _ _ _ => Returned Undefined |}.

(** a model that asks for a tool in every step, and a tool that fails *)
Definition always_calls : Ai.world VercelAITools :=
  {| Ai.llm := fun _ => Ai.tool_call ["."] "balance" Undefined;
     Ai.dispatch := fun _ _ _ => Thrown (Error "rpc unavailable") |}.

(** 123.45678 USDC, 1000 BONK and 40 JUP *)
Definition usdc : Wallet.token :=
  {| Wallet.tokenAddress := "EPjFWdd5AufqSSqeM2qN1xzybapC8G4wEGGkZwyTDt1v";
     Wallet.name := "USD Coin";
     Wallet.symbol := "USDC";
     Wallet.balance := Number (Fixed false 12345678 5) |}.

Definition bonk : Wallet.token :=
  {| Wallet.tokenAddress := "DezXAZ8z7PnrnRJjz3wXBoRgixCa6xjnB7YaB1pPB263";
     Wallet.name := "Bonk";
     Wallet.symbol := "BONK";
     Wallet.balance := of_Z 1000 |}.

Definition jup : Wallet.token :=
  {| Wallet.tokenAddress := "JUPyiwrYJFskUPiHa7hkeR8VUtAeFoSYbKedZNsDvCN";
     Wallet.name := "Jupiter";
     Wallet.symbol := "JUP";
     Wallet.balance := of_Z 40 |}.

(** 1.5 SOL and the three tokens *)
Definition held : Wallet.balances :=
  {| Wallet.sol := Number (Fixed false 15 1);
     Wallet.tokens := [usdc; bonk; jup] |}.

(** an agent that reports [held], SOL at 150 and tokens at 0.5; the price
    lookup of the second token, BONK, throws *)
Definition holdings : agent_world :=
  {| get_token_balance := Returned held;
     getPythPriceFeedID := fun _ => Returned "sol-usd-feed";
     getPythPrice := fun _ => Returned (of_Z 150);
     fetchTokenPrice := fun i _ =>
       match i with
       | 1 => Thrown (Error "price unavailable")
       | _ => Returned (Number (Fixed false 5 1))
       end |}.

(** the same agent when the SOL price feed is unavailable *)
Definition pyth_down : agent_world :=
  {| get_token_balance := Returned held;
     getPythPriceFeedID := fun _ => Returned "sol-usd-feed";
     getPythPrice := fun _ => Thrown (Error "pyth unavailable");
     fetchTokenPrice := fetchTokenPrice holdings |}.

(** the state after [walletA] has been initialised *)
Definition connected : server :=
  serve [post_init_session env "walletA"] boot.

(** the session stored by that request *)
Definition session_A : Session :=
  let created :=
    {| identity := 0;
       wallet_address := "walletA";
       rpc_url := "https://rpc.example/one";
       config := {| OPENAI_API_KEY := "sk-test";
                    HELIUS_API_KEY := "helius-test" |} |} in
  {| agent := created; tools := createVercelAITools created |}.

(** the session stored when [walletA] is initialised again, under [env'] *)
Definition session_A' : Session :=
  let created :=
    {| identity := 1;
       wallet_address := "walletA";
       rpc_url := "https://rpc.example/two";
       config := {| OPENAI_API_KEY := "sk-test";
                    HELIUS_API_KEY := "helius-test" |} |} in
  {| agent := created; tools := createVercelAITools created |}.

End Samples.

(* ===================================================================== *)
(** * Start-up checks and the command-line agent *)
(* ===================================================================== *)

(** [process.env] as a dictionary of the variables that are set *)
Module Env.
Import Js.

(** [!process.env[name]]: the variable is unset, or set to the empty
    string *)
Definition unset (env : gmap string string) (name : string) : bool :=
  match env !! name with
  | Some text => Server.falsy text
  | None => true
  end.

(** [String.prototype.toLowerCase] on the letters A to Z; every other
    character is kept. The code applies it to the names of variables,
    which are ASCII, and compares its result with ["exit"]; no character
    outside A to Z has e, x, i or t as its lower case. *)
Definition lower (c : Ascii.ascii) : Ascii.ascii :=
  let n := Ascii.nat_of_ascii c in
  if (65 <=? n)%nat && (n <=? 90)%nat then Ascii.ascii_of_nat (n + 32)
  else c.

Fixpoint toLowerCase (s : string) : string :=
  match s with
  | EmptyString => EmptyString
  | String c rest => String (lower c) (toLowerCase rest)
  end.

End Env.

(** [src/server.ts], lines 65 to 75: the checks made when the module is
    loaded, before any route is installed *)
Module Startup.
Import Js.

Definition checks (env : gmap string string) : outcome unit :=
  if Env.unset env "OPENAI_API_KEY" then
    Thrown (Error "OPENAI_API_KEY is required")
  else if Env.unset env "HELIUS_API_KEY" then
    Thrown (Error "HELIUS_API_KEY is required")
  else if Env.unset env "RPC_URL" then
    Thrown (Error "RPC_URL is required")
  else Returned tt.

(** What the init route reads from [process.env]. An unset variable,
    which [checks] excludes, reads as the empty string here. *)
Definition read (env : gmap string string) : Server.process_env.t :=
  {| Server.process_env.OPENAI_API_KEY := default "" (env !! "OPENAI_API_KEY");
     Server.process_env.HELIUS_API_KEY := default "" (env !! "HELIUS_API_KEY");
     Server.process_env.RPC_URL := default "" (env !! "RPC_URL") |}.

End Startup.

(** [src/sdks/agent_sdks/shift_agent.ts]: [validateEnvironment],
    [runChat] and [main] *)
Module Cli.
Import Js.

(** What the program does to the outside: console and standard output,
    the prompt for a line of input, the calls of [streamText], the closing
    of the readline interface. Texts are without their line breaks. *)
Inductive event (T : Type) :=
| console_log (text : string)
| console_error (text : string)
| stdout_write (text : string)
| question (prompt : string)
| stream_text (o : Ai.options T)
| rl_close.
Arguments console_log {T} text.
Arguments console_error {T} text.
Arguments stdout_write {T} text.
Arguments question {T} prompt.
Arguments stream_text {T} o.
Arguments rl_close {T}.

(** How a function ends: it returns, it throws, the process exits, or it
    waits for a line of input that does not come. *)
Inductive ending :=
| returns
| throws (e : exn)
| exits (code : nat)
| waits.

Definition requiredVars : list string :=
  [ "OPENAI_API_KEY"; "RPC_URL"; "SOLANA_PRIVATE_KEY" ].

(** [requiredVars.forEach(v => { if (!process.env[v]) missingVars.push(v) })] *)
Definition missingVars (env : gmap string string) : list string :=
  List.filter (Env.unset env) requiredVars.

Definition validateEnvironment {T} (env : gmap string string)
  : list (event T) * ending :=
  let missing := missingVars env in
  if (0 <? length missing)%nat then
    (console_error "Error: Required environment variables are not set"
     :: map (fun varName =>
               console_error
                 (varName ++ "=your_" ++ Env.toLowerCase varName ++ "_here"))
            missing,
     exits 1)
  else ([], returns).

(** The body of [while (true)], over the lines that are typed. [tools] is
    the tool set made before the loop. *)
Fixpoint turns {T} (w : Ai.world T) (tools : T) (lines : list string)
  : list (event T) * ending :=
  match lines with
  | [] => ([question "Prompt: "], waits)
  | userInput :: rest =>
      if String.eqb (Env.toLowerCase userInput) "exit" then
        ([question "Prompt: "], returns)
      else
        let o := ShiftAgent.runChat_options tools userInput in
        let response := Ai.streamText w o in
        let written := map stdout_write (Ai.fragments response) in
        match Ai.failure response with
        | Some e =>
            ((question "Prompt: " :: stream_text o :: written)%list, throws e)
        | None =>
            let '(later, e) := turns w tools rest in
            ((question "Prompt: " :: stream_text o :: written
              ++ console_log "" :: later)%list, e)
        end
  end.

(** [runChat], from the creation of the readline interface on:
    [try { while ... } catch (error) { ...; process.exit(1) }
     finally { rl.close() }] *)
Definition runChat {T} (w : Ai.world T) (tools : T) (lines : list string)
  : list (event T) * ending :=
  let '(evs, e) := turns w tools lines in
  let started := console_log "Starting chat mode... Type 'exit' to end." in
  match e with
  | throws error =>
      ((started :: evs ++ [console_error ("Error: " ++ message error)])%list,
       exits 1)
  | returns => ((started :: evs ++ [rl_close])%list, returns)
  | other => (started :: evs, other)
  end.

(** [main]: [validateEnvironment(); console.log("Starting Agent...");
    await runChat();] *)
Definition main {T} (env : gmap string string) (w : Ai.world T) (tools : T)
  (lines : list string) : list (event T) * ending :=
  match validateEnvironment env with
  | (printed, returns) =>
      let '(evs, e) := runChat w tools lines in
      ((printed ++ console_log "Starting Agent..." :: evs)%list, e)
  | stopped => stopped
  end.

(** the [streamText] calls among the events *)
Definition invocations {T} (evs : list (event T)) : list (Ai.options T) :=
  omap (fun ev => match ev with stream_text o => Some o | _ => None end) evs.

(** the texts written to standard output *)
Definition written {T} (evs : list (event T)) : list string :=
  omap (fun ev => match ev with stdout_write t => Some t | _ => None end) evs.

(** the lines printed on the error console *)
Definition errors {T} (evs : list (event T)) : list string :=
  omap (fun ev => match ev with console_error t => Some t | _ => None end) evs.

(** a line that ends the chat *)
Definition is_exit (line : string) : bool :=
  String.eqb (Env.toLowerCase line) "exit".

(** the lines typed before the first one that ends the chat *)
Fixpoint before_exit (lines : list string) : list string :=
  match lines with
  | [] => []
  | line :: rest => if is_exit line then [] else line :: before_exit rest
  end.

(** the model answers the prompt without an error *)
Definition answers {T} (w : Ai.world T) (tools : T) (line : string) : bool :=
  match Ai.failure (Ai.streamText w (ShiftAgent.runChat_options tools line)) with
  | None => true
  | Some _ => false
  end.

End Cli.

(* ===================================================================== *)
(** * Vocabulary of further statements *)
(* ===================================================================== *)

Module Observed.
Import Js Eff.

(** the URLs requested among the effects of the price cache *)
Definition requests (evs : list PriceCache.effect) : list string :=
  omap (fun ev => match ev with
                  | PriceCache.http_get url => Some url
                  | _ => None
                  end) evs.

(** the error lines among the effects of the price cache *)
Definition error_lines (evs : list PriceCache.effect) : list string :=
  omap (fun ev => match ev with
                  | PriceCache.console_error text => Some text
                  | _ => None
                  end) evs.

(** the last attempt of a series that succeeds *)
Definition last_success (atts : list PriceCache.attempt)
  : option PriceCache.attempt :=
  last (List.filter PriceCache.succeeds atts).

(** the payload of an attempt, [undefined] when there is none *)
Definition data_of (att : PriceCache.attempt) : value :=
  default Undefined (PriceCache.payload att).

(** the methods called on agents among the effects of a handler *)
Definition agent_calls (evs : list Server.effect)
  : list (Server.SolanaAgentKit * string) :=
  omap (fun ev => match ev with
                  | Server.agent_call on method => Some (on, method)
                  | _ => None
                  end) evs.

(** the refresh attempts among the requests *)
Definition attempts (requests : list Server.request)
  : list PriceCache.attempt :=
  omap (fun r => match r with
                 | Server.price_refresh att => Some att
                 | _ => None
                 end) requests.

(** the non-empty keys passed to the init route *)
Definition initialised (requests : list Server.request) : gset string :=
  list_to_set
    (omap (fun r => match r with
                    | Server.post_init_session _ k =>
                        if Server.falsy k then None else Some k
                    | _ => None
                    end) requests).

(** a token valued at par *)
Definition stable (t : Server.Wallet.token) : bool :=
  String.eqb (Server.Wallet.symbol t) "USDC".

(** the response carries one of the two statuses the handlers use, and
    an error body exactly with 500 *)
Definition well_formed_response (r : Server.http_response) : Prop :=
  (Server.status r = 200 /\ forall m, Server.json r <> Server.error m) \/
  (Server.status r = 500 /\ exists m, Server.json r = Server.error m).

End Observed.

(** Concrete inputs of the command-line agent *)
Module CliSamples.
Import Js.

(** a model that fails on the prompt [crash] and answers every other
    prompt in two fragments *)
Definition moody : Ai.world Server.VercelAITools :=
  {| Ai.llm := fun context =>
       match context with
       | [_; Ai.user_message "crash"] =>
           Ai.model_failure (Error "quota exceeded")
       | _ => Ai.final_answer ["All "; "good."]
       end;
     Ai.dispatch := fun _ _ _ => Returned Undefined |}.

Definition tools : Server.VercelAITools := Server.tools Samples.session_A.

(** an environment with all that [validateEnvironment] asks for *)
Definition complete : gmap string string :=
  <["OPENAI_API_KEY" := "sk-test"]>
    (<["RPC_URL" := "https://rpc.example/one"]>
       {["SOLANA_PRIVATE_KEY" := "4f3c"]}).

(** an environment where RPC_URL is empty and the private key unset *)
Definition incomplete : gmap string string :=
  <["OPENAI_API_KEY" := "sk-test"]> {["RPC_URL" := ""]}.

End CliSamples.

(* ===================================================================== *)
(** * Properties *)
(* ===================================================================== *)

(** one step of a computation: unfold the operations of [Eff] *)
Ltac eff_run :=
  cbv beta iota zeta delta
    [Eff.try_catch Eff.bind Eff.emit Eff.await Eff.ret Eff.throw Eff.put
     Eff.get Eff.state Eff.result Eff.events fst snd app].

(** ** The price cache *)

Module PriceCacheFacts.
Import Js Eff PriceCache.

Section Refresh.
Variable this : PriceCacheService.

(** Building an entry from a payload object whose coin is truthy reads
    the two fields and neither throws nor changes anything. *)
Lemma entry_of_quoted fields id now v :
  fields !! id = Some v -> truthy v = true ->
  entry_of (Obj fields) id now this =
    (Returned {| usd := quoted (Obj fields) id "usd";
                 usd_24h_change := quoted (Obj fields) id "usd_24h_change";
                 last_updated := now |}, this, []).
Proof.
  intros Hid Hv. unfold entry_of, quoted, own, prop. rewrite Hid. eff_run.
  destruct v; try discriminate Hv; reflexivity.
Qed.

(** On an object, the check of [updatePrices] is [passes_validation]. *)
Lemma invalid_format_object fields :
  invalid_format (Obj fields) this =
    (Returned (negb (passes_validation (Obj fields))), this, []).
Proof.
  unfold invalid_format, passes_validation, coin_ids, forallb, own, prop.
  eff_run.
  destruct (fields !! "bitcoin") as [b|]; simpl; [|reflexivity].
  destruct (truthy b); simpl; [|reflexivity].
  destruct (fields !! "ethereum") as [e|]; simpl; [|reflexivity].
  destruct (truthy e); simpl; [|reflexivity].
  destruct (fields !! "solana") as [s|]; simpl; [|reflexivity].
  destruct (truthy s); reflexivity.
Qed.

(** A payload that passes is an object with three truthy coins. *)
Lemma passes_validation_object data :
  passes_validation data = true ->
  exists fields b e s,
    data = Obj fields /\
    fields !! "bitcoin" = Some b /\ truthy b = true /\
    fields !! "ethereum" = Some e /\ truthy e = true /\
    fields !! "solana" = Some s /\ truthy s = true.
Proof.
  unfold passes_validation, coin_ids, forallb, own.
  destruct data as [| | | | | |fields]; try discriminate.
  destruct (fields !! "bitcoin") as [b|] eqn:Eb; [|discriminate].
  destruct (fields !! "ethereum") as [e|] eqn:Ee;
    [|simpl; rewrite andb_false_r; discriminate].
  destruct (fields !! "solana") as [s|] eqn:Es;
    [|simpl; rewrite !andb_false_r; discriminate].
  simpl. rewrite andb_true_r. intros H.
  apply andb_prop in H as [Hb H]. apply andb_prop in H as [He Hs].
  exists fields, b, e, s. auto 10.
Qed.

(** [updatePrices] never throws, and its effect on the service is
    [refreshed]. *)
Lemma updatePrices_refreshed att :
  result (updatePrices att this) = Returned tt /\
  state (updatePrices att this) = refreshed att this.
Proof.
  unfold updatePrices, refreshed, payload, fetch.
  destruct (fetched att) as [[j]|e]; [|split; reflexivity].
  destruct j as [data|e]; [|split; reflexivity].
  cbv beta iota delta [json].
  destruct (passes_validation data) eqn:Hv.
  - destruct (passes_validation_object _ Hv)
      as (fields & b & e & s & -> & Hb & Tb & He & Te & Hs & Ts).
    eff_run. rewrite invalid_format_object, Hv. cbn [negb]. eff_run.
    rewrite (entry_of_quoted _ _ _ _ Hb Tb). eff_run.
    rewrite (entry_of_quoted _ _ _ _ He Te). eff_run.
    rewrite (entry_of_quoted _ _ _ _ Hs Ts). split; reflexivity.
  - destruct data as [| | | | | |fields];
      try (split; reflexivity).
    eff_run. rewrite invalid_format_object, Hv. split; reflexivity.
Qed.

End Refresh.

(** [getPrice] reads the cache and nothing else. *)
Lemma getPrice_run this symbol :
  getPrice symbol this =
    (Returned match cache this !! symbol with
              | Some e => Some (PriceData e)
              | None =>
                  if bool_decide (symbol ∈ Object_prototype)
                  then Some (Inherited symbol) else None
              end, this, []).
Proof. reflexivity. Qed.

(** A series of attempts, one attempt at a time. *)
Lemma refresh_cons att atts this :
  refresh (att :: atts) this = refresh atts (refreshed att this).
Proof.
  unfold refresh. simpl. f_equal. apply updatePrices_refreshed.
Qed.

(** An attempt that does not succeed changes nothing. *)
Lemma refreshed_unsuccessful att this :
  succeeds att = false -> refreshed att this = this.
Proof.
  unfold succeeds, refreshed. destruct (payload att) as [data|]; [|reflexivity].
  intros ->. reflexivity.
Qed.

(** An attempt that succeeds installs the entries of its payload. *)
Lemma refreshed_successful att this :
  succeeds att = true ->
  exists data, payload att = Some data /\ passes_validation data = true /\
               refreshed att this = {| cache := installed data att |}.
Proof.
  unfold succeeds, refreshed. destruct (payload att) as [data|]; [|discriminate].
  intros H. exists data. rewrite H. auto.
Qed.

Lemma coin_ids_cases id :
  id ∈ coin_ids -> id = "bitcoin" \/ id = "ethereum" \/ id = "solana".
Proof.
  unfold coin_ids. intros H.
  repeat (apply elem_of_cons in H as [-> | H]; [auto|]).
  by apply elem_of_nil in H.
Qed.

(** A payload that omits a tracked symbol does not pass the check. *)
Lemma omits_tracked_fails data :
  omits_tracked data -> passes_validation data = false.
Proof.
  intros (id & Hid & Hown). unfold passes_validation, coin_ids, forallb.
  destruct (coin_ids_cases _ Hid) as [-> | [-> | ->]]; rewrite Hown; simpl;
    rewrite ?andb_false_r; reflexivity.
Qed.

(** A payload that passes the check has all tracked symbols. *)
Lemma passes_validation_contains_all data :
  passes_validation data = true -> contains_all data.
Proof.
  intros H id Hid.
  destruct (passes_validation_object _ H)
    as (fields & b & e & s & -> & Hb & _ & He & _ & Hs & _).
  simpl. destruct (coin_ids_cases _ Hid) as [-> | [-> | ->]]; eauto.
Qed.

Lemma symbols_cases sym :
  sym ∈ symbols -> sym = "BTC" \/ sym = "ETH" \/ sym = "SOL".
Proof.
  unfold symbols. intros H.
  repeat (apply elem_of_cons in H as [-> | H]; [auto|]).
  by apply elem_of_nil in H.
Qed.

(** The installed entries: one per tracked symbol, stamped by a clock
    reading of the attempt, priced by the payload. *)
Lemma installed_lookup data att sym :
  sym ∈ symbols ->
  exists e, installed data att !! sym = Some e /\
    (last_updated e = now_BTC att \/ last_updated e = now_ETH att \/
     last_updated e = now_SOL att) /\
    exists id, id ∈ coin_ids /\ usd e = quoted data id "usd".
Proof.
  intros H. unfold installed, coin_ids.
  destruct (symbols_cases _ H) as [-> | [-> | ->]];
    eexists; (split; [reflexivity|]); simpl; (split; [auto|]).
  - exists "bitcoin". split; [repeat constructor|reflexivity].
  - exists "ethereum". split; [repeat constructor|reflexivity].
  - exists "solana". split; [repeat constructor|reflexivity].
Qed.

(** The installed keys are exactly BTC, ETH and SOL. *)
Lemma installed_dom data att :
  dom (installed data att) = list_to_set symbols.
Proof.
  unfold installed, symbols. rewrite !dom_insert_L, dom_singleton_L. simpl.
  by rewrite (right_id_L ∅ (∪)).
Qed.

(** A tracked symbol is not the name of an inherited member. *)
Lemma getPrice_tracked this sym :
  sym ∈ symbols ->
  result (getPrice sym this) = Returned (PriceData <$> cache this !! sym).
Proof.
  intros H. rewrite getPrice_run. unfold result. simpl.
  destruct (cache this !! sym); [reflexivity|].
  destruct (symbols_cases _ H) as [-> | [-> | ->]]; reflexivity.
Qed.

(** C2.  A refresh attempt returns normally whatever happens. If its
    request or the parsing of the body throws, or the payload omits a
    tracked symbol, the service is left as it was, so [getPrice] answers as
    before for every symbol, with the same [last_updated]. [getPrice]
    itself never throws. The cache changes only on a payload that has all
    tracked symbols, and then all entries are replaced together. *)
Theorem updatePrices_failure_keeps_cache (att : attempt)
  (this : PriceCacheService) :
  result (updatePrices att this) = Returned tt /\
  ((payload att = None \/
    exists data, payload att = Some data /\ omits_tracked data) ->
   state (updatePrices att this) = this /\
   forall sym,
     result (getPrice sym (state (updatePrices att this)))
     = result (getPrice sym this)) /\
  (forall sym s, exists answer, result (getPrice sym s) = Returned answer) /\
  (state (updatePrices att this) <> this ->
   exists data,
     payload att = Some data /\ contains_all data /\
     cache (state (updatePrices att this)) = installed data att /\
     dom (cache (state (updatePrices att this))) = list_to_set symbols).
Proof.
  destruct (updatePrices_refreshed this att) as [Hres Hst].
  split; [exact Hres|]. rewrite Hst. split; [|split].
  - intros Hfail.
    assert (refreshed att this = this) as ->; [|auto].
    unfold refreshed. destruct Hfail as [-> | (data & -> & Homit)];
      [reflexivity|].
    by rewrite (omits_tracked_fails _ Homit).
  - intros sym s. rewrite getPrice_run. eexists. reflexivity.
  - intros Hchanged. unfold refreshed in *.
    destruct (payload att) as [data|]; [|done].
    destruct (passes_validation data) eqn:Hv; [|done].
    exists data. simpl.
    auto using passes_validation_contains_all, installed_dom.
Qed.

(** C4.  As long as no attempt has succeeded, [getPrice] answers
    [undefined] for BTC, ETH and SOL. After an attempt that succeeds, and
    whatever attempts complete later, it answers with an entry whose
    [last_updated] is not earlier than the start of that attempt, provided
    the clock readings of these attempts are not earlier than it. *)
Theorem getPrice_absent_then_fresh (before after : list attempt)
  (att : attempt) :
  (Forall (fun a => succeeds a = false) before ->
   forall sym, sym ∈ symbols ->
     result (getPrice sym (refresh before new_PriceCacheService))
     = Returned None) /\
  (succeeds att = true ->
   Forall (reads_from (started att)) (att :: after) ->
   forall this sym, sym ∈ symbols ->
     exists e,
       result (getPrice sym (refresh (att :: after) this))
       = Returned (Some (PriceData e)) /\
       (started att <= last_updated e)%Z).
Proof.
  split.
  - intros Hfail sym Hsym.
    assert (refresh before new_PriceCacheService = new_PriceCacheService)
      as ->.
    { generalize new_PriceCacheService.
      induction Hfail as [|a l Ha _ IH]; intros s; [reflexivity|].
      rewrite refresh_cons, (refreshed_unsuccessful _ _ Ha). apply IH. }
    rewrite (getPrice_tracked _ _ Hsym). reflexivity.
  - intros Hok Hclock this sym Hsym.
    set (fresh := fun s : PriceCacheService =>
           exists e, cache s !! sym = Some e /\
                     (started att <= last_updated e)%Z).
    assert (Hstep : forall a s, reads_from (started att) a ->
              (succeeds a = true \/ fresh s) -> fresh (refreshed a s)).
    { intros a s (Hb & He & Hs) Hcase.
      destruct (succeeds a) eqn:Ha.
      - destruct (refreshed_successful a s Ha) as (data & _ & _ & ->).
        destruct (installed_lookup data a sym Hsym)
          as (e & Hlook & Hstamp & _).
        exists e. split; [exact Hlook|].
        destruct Hstamp as [-> | [-> | ->]]; assumption.
      - rewrite (refreshed_unsuccessful _ _ Ha).
        destruct Hcase as [|]; [discriminate|assumption]. }
    assert (Hfresh : fresh (refresh (att :: after) this)).
    { rewrite refresh_cons. inversion Hclock as [|? ? Hatt Hafter]; subst.
      assert (Hnow : fresh (refreshed att this)) by auto.
      clear Hclock Hatt. revert Hnow. generalize (refreshed att this).
      induction Hafter as [|a l Ha _ IH]; intros s Hs; [exact Hs|].
      rewrite refresh_cons. apply IH. auto. }
    destruct Hfresh as (e & Hlook & Hle). exists e.
    rewrite (getPrice_tracked _ _ Hsym), Hlook. auto.
Qed.


(** C2 at a payload that lacks [bitcoin], after one successful refresh. *)
Lemma updatePrices_failure_keeps_cache_witness :
  state (updatePrices (Samples.attempt_at 0 Samples.feed_incomplete)
           (refresh [Samples.attempt_at 0 Samples.feed] new_PriceCacheService))
  = refresh [Samples.attempt_at 0 Samples.feed] new_PriceCacheService.
Proof.
  apply (updatePrices_failure_keeps_cache
           (Samples.attempt_at 0 Samples.feed_incomplete)).
  right. exists Samples.feed_incomplete. split; [reflexivity|].
  exists "bitcoin". split; [repeat constructor|reflexivity].
Defined.

(** C4 at a refresh called at time 1000, followed by a failed one. *)
Lemma getPrice_absent_then_fresh_witness :
  exists e,
    result (getPrice "BTC"
              (refresh [Samples.attempt_at 1000 Samples.feed;
                        Samples.attempt_offline 5000]
                 new_PriceCacheService))
    = Returned (Some (PriceData e)) /\ (1000 <= last_updated e)%Z.
Proof.
  apply (getPrice_absent_then_fresh []
           [Samples.attempt_offline 5000]
           (Samples.attempt_at 1000 Samples.feed)).
  - reflexivity.
  - repeat constructor; simpl; lia.
  - repeat constructor.
Defined.

(** C8.  A series of [getPrice] calls with no refresh in between leaves
    the service as it was and emits no effect, in particular no HTTP
    request; each call answers what a single call answers in that state,
    so two calls for one symbol answer the same. *)
Theorem getPrice_idempotent (this : PriceCacheService)
  (syms : list string) (i : nat) :
  exists answers,
    for_each (fun _ sym => getPrice sym) i syms this
    = (Returned answers, this, []) /\
    Forall2 (fun sym answer => result (getPrice sym this) = Returned answer)
      syms answers /\
    forall j k sym,
      syms !! j = Some sym -> syms !! k = Some sym ->
      answers !! j = answers !! k.
Proof.
  assert (Hrun : exists answers,
            for_each (fun _ sym => getPrice sym) i syms this
            = (Returned answers, this, []) /\
            Forall2 (fun sym answer =>
                       result (getPrice sym this) = Returned answer)
              syms answers).
  { revert i. induction syms as [|sym syms IH]; intros i.
    - exists []. split; [reflexivity|constructor].
    - destruct (IH (S i)) as (answers & Hrun & Hall).
      eexists (_ :: answers). split.
      + simpl. unfold bind at 1. rewrite getPrice_run.
        unfold bind. rewrite Hrun. reflexivity.
      + constructor; [reflexivity|exact Hall]. }
  destruct Hrun as (answers & Hrun & Hall). exists answers.
  split; [exact Hrun|]. split; [exact Hall|].
  intros j k sym Hj Hk.
  destruct (Forall2_lookup_l _ _ _ _ _ Hall Hj) as (a & Ha & Hja).
  destruct (Forall2_lookup_l _ _ _ _ _ Hall Hk) as (b & Hb & Hkb).
  rewrite Ha, Hb. congruence.
Qed.

(** Induction over the attempts of a series. *)
Lemma refresh_preserves (P : PriceCacheService -> Prop)
  (atts : list attempt) :
  (forall att s, att ∈ atts -> P s -> P (refreshed att s)) ->
  forall s, P s -> P (refresh atts s).
Proof.
  induction atts as [|att atts IH]; intros Hstep s Hs; [exact Hs|].
  rewrite refresh_cons. apply IH.
  - intros a s' Ha. apply Hstep. by apply list_elem_of_further.
  - apply Hstep; [apply list_elem_of_here|exact Hs].
Qed.

(** The own keys of the cache stay within BTC, ETH and SOL. *)
Lemma refresh_dom atts :
  dom (cache (refresh atts new_PriceCacheService)) ⊆ list_to_set symbols.
Proof.
  apply refresh_preserves.
  - intros att s _ Hs. unfold refreshed.
    destruct (payload att) as [data|]; [|exact Hs].
    destruct (passes_validation data); [|exact Hs].
    simpl. by rewrite installed_dom.
  - simpl. rewrite dom_empty_L. apply empty_subseteq.
Qed.

(** Outside the tracked symbols and the inherited names, [getPrice]
    answers [undefined]. *)
Lemma getPrice_untracked atts sym :
  sym ∉ symbols -> sym ∉ Object_prototype ->
  result (getPrice sym (refresh atts new_PriceCacheService)) = Returned None.
Proof.
  intros Hsym Hproto. rewrite getPrice_run. unfold result. simpl.
  destruct (cache _ !! sym) as [e|] eqn:Hlook.
  - exfalso. apply Hsym.
    assert (Hin : sym ∈ dom (cache (refresh atts new_PriceCacheService)))
      by (apply elem_of_dom; eauto).
    apply refresh_dom in Hin. by apply elem_of_list_to_set in Hin.
  - by rewrite bool_decide_eq_false_2.
Qed.

(** C9, as stated, fails: validation looks at the presence of the three
    objects, not at their [usd]. *)
Lemma negative_price_observable :
  ~ (forall atts sym e,
       sym ∈ symbols ->
       price_entry (result (getPrice sym (refresh atts new_PriceCacheService)))
       = Some e ->
       non_negative (usd e) = true).
Proof.
  intros H.
  specialize (H [Samples.attempt_at 0 Samples.feed_negative] "BTC"
                {| usd := Num (of_Z (-1)); usd_24h_change := Num zero;
                   last_updated := 250 |}).
  assert (false = true); [|discriminate].
  apply H; [repeat constructor|]. vm_compute. reflexivity.
Qed.

(** C9, amended.  Every entry [getPrice] shows for a tracked symbol has a
    non-negative [usd], provided each payload that passed the check had
    non-negative numbers as the [usd] of bitcoin, ethereum and solana. *)
Theorem usd_non_negative_from_payloads (atts : list attempt) :
  (forall att data id,
     att ∈ atts -> payload att = Some data ->
     passes_validation data = true -> id ∈ coin_ids ->
     non_negative (quoted data id "usd") = true) ->
  forall sym e,
    sym ∈ symbols ->
    price_entry (result (getPrice sym (refresh atts new_PriceCacheService)))
    = Some e ->
    non_negative (usd e) = true.
Proof.
  intros Hpay sym e Hsym. rewrite (getPrice_tracked _ _ Hsym). simpl.
  assert (Hinv : forall e', cache (refresh atts new_PriceCacheService) !! sym
                            = Some e' -> non_negative (usd e') = true).
  { apply (refresh_preserves
             (fun s => forall e', cache s !! sym = Some e' ->
                                  non_negative (usd e') = true)).
    - intros att s Hatt Hs e'. unfold refreshed.
      destruct (payload att) as [data|] eqn:Hp; [|apply Hs].
      destruct (passes_validation data) eqn:Hv; [|apply Hs].
      simpl. intros Hlook.
      destruct (installed_lookup data att sym Hsym)
        as (e0 & Hlook0 & _ & id & Hid & Husd).
      rewrite Hlook0 in Hlook. injection Hlook as <-.
      rewrite Husd. eauto.
    - simpl. intros e'. rewrite lookup_empty. discriminate. }
  destruct (cache _ !! sym) as [e'|] eqn:Hlook; [|discriminate].
  simpl. intros [= <-]. auto.
Qed.

(** C9, amended, at the feed of the end-to-end scenario. *)
Lemma usd_non_negative_from_payloads_witness :
  exists e,
    price_entry (result (getPrice "BTC"
      (refresh [Samples.attempt_at 0 Samples.feed] new_PriceCacheService)))
    = Some e /\
    usd e = Num (of_Z 50000) /\
    non_negative (usd e) = true.
Proof.
  eexists. split; [vm_compute; reflexivity|]. split; [reflexivity|].
  apply (usd_non_negative_from_payloads [Samples.attempt_at 0 Samples.feed])
    with (sym := "BTC"); [|repeat constructor|vm_compute; reflexivity].
  intros att data id Hatt Hp _ Hid.
  apply list_elem_of_singleton in Hatt as ->. injection Hp as <-.
  destruct (coin_ids_cases _ Hid) as [-> | [-> | ->]]; reflexivity.
Defined.

(** C10.  In every reachable state the own keys of the cache lie within
    BTC, ETH and SOL, and [getPrice] answers [undefined] for every other
    symbol that does not name a member of [Object.prototype]. For a symbol
    that does, here [constructor], which is outside the tracked set,
    [getPrice] does not answer [undefined]: [this.cache[symbol]] finds the
    inherited member. *)
Theorem getPrice_inherited_member (atts : list attempt) :
  let this := refresh atts new_PriceCacheService in
  dom (cache this) ⊆ list_to_set symbols /\
  (forall sym,
     sym ∉ symbols -> sym ∉ Object_prototype ->
     result (getPrice sym this) = Returned None) /\
  ("constructor" ∉ symbols) /\
  result (getPrice "constructor" this)
  = Returned (Some (Inherited "constructor")).
Proof.
  intros this. split; [apply refresh_dom|].
  split; [intros sym; apply getPrice_untracked|].
  assert (Hout : "constructor" ∉ symbols).
  { intros H. destruct (symbols_cases _ H) as [? | [? | ?]]; discriminate. }
  split; [exact Hout|].
  rewrite getPrice_run. unfold result. simpl.
  destruct (cache this !! "constructor") as [e|] eqn:Hlook; [|reflexivity].
  exfalso. apply Hout.
  assert (Hin : "constructor" ∈ dom (cache this))
    by (apply elem_of_dom; eauto).
  apply refresh_dom in Hin. by apply elem_of_list_to_set in Hin.
Qed.

End PriceCacheFacts.

(** ** The server *)

Module ServerFacts.
Import Js Eff Server.

(** A state rebuilt from its own fields is the state. *)
Lemma server_eta s :
  {| userSessions := userSessions s; priceCache := priceCache s;
     allocated := allocated s |} = s.
Proof. destruct s; reflexivity. Qed.

(** ** The chat route *)

(** The three ways through the chat handler: a field is missing, the
    session is missing, the model is invoked. *)
Lemma chat_missing_parameter w m k s :
  falsy m || falsy k = true ->
  result (chat w m k s) = Returned MissingParameter /\
  state (chat w m k s) = s /\ invocations (events (chat w m k s)) = [].
Proof.
  intros H. unfold chat. eff_run. rewrite H. auto.
Qed.

Lemma chat_no_session w m k s :
  falsy m || falsy k = false -> userSessions s !! k = None ->
  result (chat w m k s)
  = Returned (res_status_json 500
                (error "Session not found - please connect wallet first")) /\
  state (chat w m k s) = s /\ invocations (events (chat w m k s)) = [].
Proof.
  intros H Hk. unfold chat, userSessions_get. eff_run. rewrite H. eff_run.
  rewrite Hk. auto.
Qed.

Lemma chat_session w m k s session :
  falsy m || falsy k = false -> userSessions s !! k = Some session ->
  let o := chat_options m session in
  result (chat w m k s)
  = Returned match Ai.failure (Ai.streamText w o) with
             | None =>
                 res_json (chat_response
                   (fold_left (fun acc chunk => acc ++ chunk)
                      (Ai.fragments (Ai.streamText w o)) ""))
             | Some e => res_status_json 500 (error (Js.message e))
             end /\
  state (chat w m k s) = s /\ invocations (events (chat w m k s)) = [o].
Proof.
  intros H Hk o. unfold chat, userSessions_get, collect. eff_run. rewrite H.
  eff_run. rewrite Hk. fold o. destruct (Ai.failure (Ai.streamText w o)); auto.
Qed.

(** The chat handler leaves the state as it is. *)
Lemma chat_state w m k s : state (chat w m k s) = s.
Proof.
  destruct (falsy m || falsy k) eqn:H.
  - apply chat_missing_parameter, H.
  - destruct (userSessions s !! k) as [session|] eqn:Hk.
    + apply (chat_session w m k s session H Hk).
    + apply chat_no_session; assumption.
Qed.

(** ** The sign-transaction route *)

Lemma sign_transaction_state t k s : state (sign_transaction t k s) = s.
Proof.
  unfold sign_transaction, userSessions_get. eff_run.
  destruct (userSessions s !! k); reflexivity.
Qed.

(** ** The init route *)

(** Without a key, the init handler stores nothing. *)
Lemma init_session_missing env k s :
  falsy k = true ->
  result (init_session env k s)
  = Returned (res_status_json 500 (error "Public key is required")) /\
  state (init_session env k s) = s.
Proof.
  intros H. unfold init_session. eff_run. rewrite H. auto.
Qed.

(** With a key, it creates an agent and stores the session under the
    key. *)
Lemma init_session_stores env k s :
  falsy k = false ->
  let created :=
    {| identity := allocated s;
       wallet_address := k;
       rpc_url := process_env.RPC_URL env;
       config := {| OPENAI_API_KEY := process_env.OPENAI_API_KEY env;
                    HELIUS_API_KEY := process_env.HELIUS_API_KEY env |} |} in
  result (init_session env k s) = Returned (res_json (success true)) /\
  state (init_session env k s)
  = {| userSessions :=
         <[k := {| agent := created; tools := createVercelAITools created |}]>
           (userSessions s);
       priceCache := priceCache s;
       allocated := S (allocated s) |}.
Proof.
  intros H created. unfold init_session, new_SolanaAgentKit, userSessions_set.
  eff_run. rewrite H. eff_run. auto.
Qed.


(** ** The portfolio route *)

(** The callback of the token list yields [token_row_of] and never
    throws. *)
Lemma format_token_run a session i t s :
  exists evs,
    format_token a session i t s
    = (Returned (token_row_of (fetchTokenPrice a i (Wallet.tokenAddress t)) t),
       s, evs).
Proof.
  unfold format_token, token_row_of, ask. eff_run.
  destruct (String.eqb (Wallet.symbol t) "USDC"); [eauto|].
  destruct (fetchTokenPrice a i (Wallet.tokenAddress t)); eauto.
Qed.

(** So does the whole list, in order. *)
Lemma for_each_format_token a session tokens : forall i s,
  exists evs,
    for_each (format_token a session) i tokens s
    = (Returned
         (imap (fun j t =>
                  token_row_of
                    (fetchTokenPrice a (i + j) (Wallet.tokenAddress t)) t)
               tokens), s, evs).
Proof.
  induction tokens as [|t tokens IH]; intros i s; [by eexists|].
  destruct (format_token_run a session i t s) as (ev1 & Hrun).
  destruct (IH (S i) s) as (ev2 & Hrest).
  simpl. unfold bind at 1. rewrite Hrun. cbv beta iota zeta.
  unfold bind at 1. rewrite Hrest. cbv beta iota zeta delta [ret].
  rewrite Nat.add_0_r. eexists. do 4 f_equal.
  apply imap_ext. intros j x _. simpl. by rewrite Nat.add_succ_r.
Qed.

(** The portfolio handler: the response by cases on the session and on
    the answers of the agent; the state is left as it is. *)
Lemma get_portfolio_run a k s :
  result (get_portfolio a k s)
  = Returned
      match userSessions s !! k with
      | None => res_status_json 500 (error "Session not found")
      | Some session =>
          match get_token_balance a with
          | Thrown e => res_status_json 500 (error (Js.message e))
          | Returned balances =>
              match getPythPriceFeedID a "SOL" with
              | Thrown e => res_status_json 500 (error (Js.message e))
              | Returned feed =>
                  match getPythPrice a feed with
                  | Thrown e => res_status_json 500 (error (Js.message e))
                  | Returned solPrice =>
                      res_json (portfolio (snapshot_of a s balances solPrice))
                  end
              end
          end
      end /\
  state (get_portfolio a k s) = s.
Proof.
  unfold get_portfolio, userSessions_get, ask. eff_run.
  destruct (userSessions s !! k) as [session|]; [|auto].
  destruct (get_token_balance a) as [balances|e]; [|auto].
  destruct (getPythPriceFeedID a "SOL") as [feed|e]; [|auto].
  destruct (getPythPrice a feed) as [solPrice|e]; [|auto].
  destruct (for_each_format_token a session (Wallet.tokens balances) 0 s)
    as (evs & ->).
  unfold on_priceCache. rewrite !PriceCacheFacts.getPrice_run.
  rewrite !server_eta. auto.
Qed.

(** A string is falsy exactly when it is empty. *)
Lemma falsy_empty k : falsy k = true <-> k = "".
Proof.
  unfold falsy. simpl. rewrite negb_involutive. apply String.eqb_eq.
Qed.

Lemma falsy_non_empty m k :
  m <> "" -> k <> "" -> falsy m || falsy k = false.
Proof.
  intros Hm Hk. apply orb_false_intro; apply not_true_is_false;
    rewrite falsy_empty; assumption.
Qed.

(** ** States reached by serving requests *)

(** The state after a request: only the init route and a price refresh
    change it. *)
Lemma handle_state r s :
  state (handle r s)
  = match r with
    | post_init_session env k => state (init_session env k s)
    | price_refresh att =>
        {| userSessions := userSessions s;
           priceCache := PriceCache.refreshed att (priceCache s);
           allocated := allocated s |}
    | _ => s
    end.
Proof.
  destruct r as [env k|w m k|t k|a k|att]; unfold handle.
  - eff_run. destruct (init_session env k s) as [[[res|e] s'] ev]; reflexivity.
  - rewrite <- (chat_state w m k s) at 2. eff_run.
    destruct (chat w m k s) as [[[res|e] s'] ev]; reflexivity.
  - rewrite <- (sign_transaction_state t k s) at 2. eff_run.
    destruct (sign_transaction t k s) as [[[res|e] s'] ev]; reflexivity.
  - rewrite <- (proj2 (get_portfolio_run a k s)) at 2. eff_run.
    destruct (get_portfolio a k s) as [[[res|e] s'] ev]; reflexivity.
  - destruct (PriceCacheFacts.updatePrices_refreshed (priceCache s) att)
      as [Hres Hst].
    unfold on_priceCache. eff_run. unfold result, state in Hres, Hst.
    destruct (PriceCache.updatePrices att (priceCache s)) as [[res c] ev].
    simpl in Hres, Hst. subst. reflexivity.
Qed.

Lemma serve_cons r requests s :
  serve (r :: requests) s = serve requests (state (handle r s)).
Proof. reflexivity. Qed.

(** Induction over the requests served. *)
Lemma serve_preserves (P : server -> Prop) (requests : list request) :
  (forall r s, r ∈ requests -> P s -> P (state (handle r s))) ->
  forall s, P s -> P (serve requests s).
Proof.
  induction requests as [|r requests IH]; intros Hstep s Hs; [exact Hs|].
  rewrite serve_cons. apply IH.
  - intros r' s' Hr'. apply Hstep. by apply list_elem_of_further.
  - apply Hstep; [apply list_elem_of_here|exact Hs].
Qed.

(** Only the init route for [k] changes the session stored under [k]. *)
Lemma handle_session_kept r s k :
  (forall env, r <> post_init_session env k) ->
  userSessions (state (handle r s)) !! k = userSessions s !! k.
Proof.
  intros Hr. rewrite handle_state.
  destruct r as [env k'|w m k'|t k'|a k'|att]; try reflexivity.
  destruct (falsy k') eqn:Hk'.
  - by rewrite (proj2 (init_session_missing env k' s Hk')).
  - rewrite (proj2 (init_session_stores env k' s Hk')). simpl.
    apply lookup_insert_ne. intros ->. by apply (Hr env).
Qed.

(** Hence a key never initialised keeps what it had. *)
Lemma serve_session_kept requests k : forall s,
  never_initialised k requests ->
  userSessions (serve requests s) !! k = userSessions s !! k.
Proof.
  induction requests as [|r requests IH]; intros s Hnever; [reflexivity|].
  rewrite serve_cons, IH.
  - apply handle_session_kept. intros env ->.
    apply (Hnever env), list_elem_of_here.
  - intros env Hin. apply (Hnever env). by apply list_elem_of_further.
Qed.

(** Every request keeps the sessions well-formed. *)
Lemma handle_well_formed r s :
  well_formed s -> well_formed (state (handle r s)).
Proof.
  intros Hwf. rewrite handle_state.
  destruct r as [env k'|w m k'|t k'|a k'|att]; try exact Hwf.
  destruct (falsy k') eqn:Hk'.
  - by rewrite (proj2 (init_session_missing env k' s Hk')).
  - rewrite (proj2 (init_session_stores env k' s Hk')).
    intros k session. simpl. rewrite lookup_insert.
    case_decide as Hkk.
    + intros [= <-]. subst k. simpl. auto.
    + intros Hlook. destruct (Hwf k session Hlook) as (? & ? & ? & ?). auto.
Qed.

Lemma boot_well_formed : well_formed boot.
Proof. intros k session. unfold boot. simpl. by rewrite lookup_empty. Qed.

Lemma serve_well_formed requests s :
  well_formed s -> well_formed (serve requests s).
Proof.
  apply serve_preserves. intros r s' _. apply handle_well_formed.
Qed.

(** C1, as stated, fails: a chat request with an empty message is turned
    down for the missing field before the session is looked up. *)
Lemma empty_message_not_SessionNotFound :
  ~ (forall requests k w m,
       never_initialised k requests ->
       exists r, result (chat w m k (serve requests boot)) = Returned r /\
                 SessionNotFound r).
Proof.
  intros H.
  destruct (H [] "walletA" Samples.fixed_reply "") as (r & Hr & Hnf).
  - intros env Hin. by apply elem_of_nil in Hin.
  - vm_compute in Hr. injection Hr as <-.
    destruct Hnf as [Hnf | Hnf]; discriminate Hnf.
Qed.

(** C1, amended.  For a key never passed to the init route: a chat
    request whose message and key are both non-empty gets the
    session-not-found response; one whose message or key is empty gets the
    missing-field response; the portfolio route gets the session-not-found
    response; none of these calls changes the state or invokes the
    model. *)
Theorem uninitialised_key_rejected (requests : list request) (k : string) :
  never_initialised k requests ->
  let s := serve requests boot in
  (forall w m, m <> "" -> k <> "" ->
     exists r, result (chat w m k s) = Returned r /\ SessionNotFound r) /\
  (forall w m, m = "" \/ k = "" ->
     result (chat w m k s) = Returned MissingParameter) /\
  (forall w m,
     state (chat w m k s) = s /\ invocations (events (chat w m k s)) = []) /\
  (forall a,
     (exists r, result (get_portfolio a k s) = Returned r /\
                SessionNotFound r) /\
     state (get_portfolio a k s) = s).
Proof.
  intros Hnever s.
  assert (Hk : userSessions s !! k = None).
  { unfold s. rewrite (serve_session_kept _ _ _ Hnever). apply lookup_empty. }
  assert (Hmissing : forall m, m = "" \/ k = "" -> falsy m || falsy k = true).
  { intros m [-> | ->]; [reflexivity|apply orb_true_r]. }
  repeat split.
  - intros w m Hm Hk0. eexists. split.
    + apply chat_no_session; [by apply falsy_non_empty|exact Hk].
    + by left.
  - intros w m Hm. by apply chat_missing_parameter, Hmissing.
  - apply chat_state.
  - destruct (falsy m || falsy k) eqn:Hf.
    + by apply chat_missing_parameter.
    + by apply chat_no_session.
  - eexists. split.
    + rewrite (proj1 (get_portfolio_run a k s)), Hk. reflexivity.
    + by right.
  - apply get_portfolio_run.
Qed.

(** C1, amended, at [walletB] when only [walletA] is connected. *)
Lemma uninitialised_key_rejected_witness :
  exists r,
    result (chat Samples.fixed_reply "what is my balance?" "walletB"
              Samples.connected)
    = Returned r /\ SessionNotFound r.
Proof.
  apply (uninitialised_key_rejected
           [post_init_session Samples.env "walletA"] "walletB");
    [|discriminate|discriminate].
  intros env Hin. apply list_elem_of_singleton in Hin. discriminate Hin.
Defined.


(** C3.  When a session is stored under [k], the init route called again
    for [k] succeeds and stores a new session in its place: its agent is a
    newly created object, configured from the environment of this call,
    and its tools are derived from that agent, so agent and tools differ
    from those of every session stored before. Whatever requests follow
    that do not initialise [k] again, a chat request for [k] passes no
    other tool set to the model than the new one, and it does invoke the
    model, once, when its message is not empty. *)
Theorem init_session_replaces (requests later : list request)
  (k : string) (old : Session) (env : process_env.t) :
  let s := serve requests boot in
  userSessions s !! k = Some old ->
  never_initialised k later ->
  let s' := state (init_session env k s) in
  exists new,
    result (init_session env k s) = Returned (res_json (success true)) /\
    userSessions s' !! k = Some new /\
    agent new
    = {| identity := allocated s;
         wallet_address := k;
         rpc_url := process_env.RPC_URL env;
         config := {| OPENAI_API_KEY := process_env.OPENAI_API_KEY env;
                      HELIUS_API_KEY := process_env.HELIUS_API_KEY env |} |} /\
    tools new = createVercelAITools (agent new) /\
    (forall k0 prior,
       userSessions s !! k0 = Some prior ->
       agent prior <> agent new /\ tools prior <> tools new) /\
    forall w m,
      let r := chat w m k (serve later s') in
      (forall o, o ∈ invocations (events r) ->
         Ai.tools o = tools new /\ Ai.tools o <> tools old) /\
      (m <> "" -> invocations (events r) = [chat_options m new]).
Proof.
  intros s Hold Hnever s'.
  assert (Hwf : well_formed s) by apply serve_well_formed, boot_well_formed.
  destruct (Hwf k old Hold) as (Hk & Hid & _ & Htools).
  destruct (init_session_stores env k s Hk) as [Hres Hst].
  cbv zeta in Hst. fold s' in Hst.
  set (created :=
         {| identity := allocated s;
            wallet_address := k;
            rpc_url := process_env.RPC_URL env;
            config := {| OPENAI_API_KEY := process_env.OPENAI_API_KEY env;
                         HELIUS_API_KEY := process_env.HELIUS_API_KEY env |} |})
    in *.
  set (new := {| agent := created; tools := createVercelAITools created |})
    in *.
  assert (Hs' : userSessions s' !! k = Some new).
  { rewrite Hst. apply lookup_insert_eq. }
  assert (Hfresh : forall k0 prior,
            userSessions s !! k0 = Some prior ->
            agent prior <> created /\
            tools prior <> createVercelAITools created).
  { intros k0 prior Hprior.
    destruct (Hwf k0 prior Hprior) as (_ & Hlt & _ & Hbound).
    split.
    - intros Heq. rewrite Heq in Hlt. simpl in Hlt. lia.
    - rewrite Hbound. intros [= Heq]. rewrite Heq in Hlt. simpl in Hlt. lia. }
  exists new. split; [exact Hres|]. split; [exact Hs'|].
  split; [reflexivity|]. split; [reflexivity|]. split; [exact Hfresh|].
  intros w m r.
  assert (Hnew : userSessions (serve later s') !! k = Some new).
  { by rewrite (serve_session_kept _ _ _ Hnever). }
  destruct (falsy m || falsy k) eqn:Hf.
  - destruct (chat_missing_parameter w m k (serve later s') Hf)
      as (_ & _ & Hinv).
    unfold r. rewrite Hinv. split.
    + intros o Ho. by apply elem_of_nil in Ho.
    + intros Hm. rewrite Hk, orb_false_r in Hf.
      apply falsy_empty in Hf. contradiction.
  - destruct (chat_session w m k (serve later s') new Hf Hnew)
      as (_ & _ & Hinv).
    unfold r. rewrite Hinv. split; [|reflexivity].
    intros o Ho. apply list_elem_of_singleton in Ho as ->.
    split; [reflexivity|]. intros Heq.
    by apply (proj2 (Hfresh k old Hold)).
Qed.

(** C3 at [walletA], initialised under [env], then again under [env'];
    another wallet connects before the chat request. *)
Lemma init_session_replaces_witness :
  invocations
    (events
       (chat Samples.fixed_reply "what is my balance?" "walletA"
          (serve [post_init_session Samples.env "walletB"]
             (state (init_session Samples.env' "walletA"
                       Samples.connected)))))
  = [chat_options "what is my balance?" Samples.session_A'].
Proof.
  destruct (init_session_replaces
              [post_init_session Samples.env "walletA"]
              [post_init_session Samples.env "walletB"]
              "walletA" Samples.session_A Samples.env')
    as (new & _ & Hnew & _ & _ & _ & Hchat).
  - vm_compute. reflexivity.
  - intros env Hin. apply list_elem_of_singleton in Hin. discriminate Hin.
  - destruct (Hchat Samples.fixed_reply "what is my balance?") as [_ Hone].
    unfold Samples.connected. rewrite Hone; [|discriminate].
    vm_compute in Hnew. injection Hnew as <-. reflexivity.
Defined.

(** The row at a position is the row of the token at that position. *)
Lemma token_rows_lookup a tokens i t :
  tokens !! i = Some t ->
  token_rows a tokens !! i
  = Some (token_row_of (fetchTokenPrice a i (Wallet.tokenAddress t)) t).
Proof.
  intros H. unfold token_rows. by rewrite list_lookup_imap, H.
Qed.

(** A portfolio response comes from a stored session and three answers
    of its agent. *)
Lemma portfolio_snapshot a k s snapshot :
  result (get_portfolio a k s) = Returned (res_json (portfolio snapshot)) ->
  exists session balances feed solPrice,
    userSessions s !! k = Some session /\
    get_token_balance a = Returned balances /\
    getPythPriceFeedID a "SOL" = Returned feed /\
    getPythPrice a feed = Returned solPrice /\
    snapshot = snapshot_of a s balances solPrice.
Proof.
  rewrite (proj1 (get_portfolio_run a k s)).
  destruct (userSessions s !! k) as [session|]; [|discriminate].
  destruct (get_token_balance a) as [balances|e]; [|discriminate].
  destruct (getPythPriceFeedID a "SOL") as [feed|e]; [|discriminate].
  destruct (getPythPrice a feed) as [solPrice|e] eqn:Hprice; [|discriminate].
  intros [= <-]. exists session, balances, feed, solPrice. auto.
Qed.

(** C5.  In every portfolio response, the row of a token whose symbol is
    USDC has as USD value the balance rounded to 2 decimals and as balance
    the balance rounded to 8 decimals, whatever the per-token price
    lookups of the request do. *)
Theorem stable_asset_valued_at_par (a : agent_world) (k : string)
  (s : server) (snapshot : Snapshot.response) :
  result (get_portfolio a k s) = Returned (res_json (portfolio snapshot)) ->
  exists balances,
    get_token_balance a = Returned balances /\
    forall i t,
      Wallet.tokens balances !! i = Some t ->
      Wallet.symbol t = "USDC" ->
      exists row,
        Snapshot.tokens snapshot !! i = Some row /\
        Snapshot.usdValue row = Number (toFixed (Wallet.balance t) 2) /\
        Snapshot.balance row = Number (toFixed (Wallet.balance t) 8).
Proof.
  intros Hres.
  destruct (portfolio_snapshot a k s snapshot Hres)
    as (session & balances & feed & solPrice & _ & Hbal & _ & _ & ->).
  exists balances. split; [exact Hbal|]. intros i t Hi Husdc.
  eexists. split; [apply token_rows_lookup, Hi|].
  unfold token_row_of. rewrite Husdc. simpl. auto.
Qed.

(** C6.  When the session exists and the balance and SOL price queries
    succeed, the portfolio route answers with a snapshot that has one row
    per token, in order. Each row is determined by its own token and the
    outcome of its own price lookup alone, so a lookup that throws leaves
    the other rows as they are; the row of a token other than USDC whose
    lookup throws has USD value 0. *)
Theorem price_lookup_failure_degrades_to_zero (a : agent_world)
  (k : string) (s : server) (session : Session)
  (balances : Wallet.balances) (feed : string) (solPrice : number) :
  userSessions s !! k = Some session ->
  get_token_balance a = Returned balances ->
  getPythPriceFeedID a "SOL" = Returned feed ->
  getPythPrice a feed = Returned solPrice ->
  exists snapshot,
    result (get_portfolio a k s) = Returned (res_json (portfolio snapshot)) /\
    length (Snapshot.tokens snapshot) = length (Wallet.tokens balances) /\
    forall i t,
      Wallet.tokens balances !! i = Some t ->
      Snapshot.tokens snapshot !! i
      = Some (token_row_of (fetchTokenPrice a i (Wallet.tokenAddress t)) t) /\
      (Wallet.symbol t <> "USDC" ->
       (exists e, fetchTokenPrice a i (Wallet.tokenAddress t) = Thrown e) ->
       exists row,
         Snapshot.tokens snapshot !! i = Some row /\
         Snapshot.token row = Wallet.symbol t /\
         Snapshot.balance row = Number (toFixed (Wallet.balance t) 8) /\
         Snapshot.usdValue row = zero).
Proof.
  intros Hk Hbal Hfeed Hprice.
  exists (snapshot_of a s balances solPrice). split; [|split].
  - rewrite (proj1 (get_portfolio_run a k s)), Hk, Hbal, Hfeed, Hprice.
    reflexivity.
  - apply length_imap.
  - intros i t Hi. split; [apply token_rows_lookup, Hi|].
    intros Hsym [e He]. eexists. split; [apply token_rows_lookup, Hi|].
    unfold token_row_of. rewrite He.
    apply String.eqb_neq in Hsym. rewrite Hsym. simpl. auto.
Qed.

(** C5 at the portfolio of [walletA] with the agent [holdings]. *)
Lemma stable_asset_valued_at_par_witness :
  exists balances,
    get_token_balance Samples.holdings = Returned balances /\
    forall i t,
      Wallet.tokens balances !! i = Some t ->
      Wallet.symbol t = "USDC" ->
      exists row,
        Snapshot.tokens
          (snapshot_of Samples.holdings Samples.connected Samples.held
             (of_Z 150)) !! i = Some row /\
        Snapshot.usdValue row = Number (toFixed (Wallet.balance t) 2) /\
        Snapshot.balance row = Number (toFixed (Wallet.balance t) 8).
Proof.
  apply (stable_asset_valued_at_par Samples.holdings "walletA"
           Samples.connected).
  vm_compute. reflexivity.
Defined.

(** C6 at the same request: the lookup for BONK, at position 1, throws. *)
Lemma price_lookup_failure_degrades_to_zero_witness :
  exists snapshot,
    result (get_portfolio Samples.holdings "walletA" Samples.connected)
    = Returned (res_json (portfolio snapshot)) /\
    length (Snapshot.tokens snapshot) = 3 /\
    exists row,
      Snapshot.tokens snapshot !! 1 = Some row /\
      Snapshot.token row = "BONK" /\
      Snapshot.balance row = of_Z 1000 /\
      Snapshot.usdValue row = zero.
Proof.
  destruct (price_lookup_failure_degrades_to_zero Samples.holdings "walletA"
              Samples.connected Samples.session_A Samples.held
              "sol-usd-feed" (of_Z 150))
    as (snapshot & Hres & Hlen & Hrows);
    [vm_compute; reflexivity|reflexivity|reflexivity|reflexivity|].
  exists snapshot. split; [exact Hres|]. split; [exact Hlen|].
  destruct (Hrows 1 Samples.bonk) as [_ Hzero]; [reflexivity|].
  apply Hzero; [discriminate|]. eexists. reflexivity.
Defined.

(** String concatenation: unit and associativity. *)
Lemma append_empty_r (x : string) : x ++ "" = x.
Proof.
  induction x as [|c x IH]; [reflexivity|].
  change (String c (x ++ "") = String c x). by rewrite IH.
Qed.

Lemma append_associative (x y z : string) : (x ++ y) ++ z = x ++ y ++ z.
Proof.
  induction x as [|c x IH]; [reflexivity|].
  change (String c ((x ++ y) ++ z) = String c (x ++ y ++ z)). by rewrite IH.
Qed.

Lemma concat_cons (c : string) (chunks : list string) :
  String.concat "" (c :: chunks) = c ++ String.concat "" chunks.
Proof.
  destruct chunks as [|c' chunks]; [|reflexivity].
  change (c = c ++ ""). by rewrite append_empty_r.
Qed.

(** the loop of [for await] builds the concatenation of the fragments *)
Lemma fold_left_append (chunks : list string) : forall acc,
  fold_left (fun acc chunk => acc ++ chunk) chunks acc
  = acc ++ String.concat "" chunks.
Proof.
  induction chunks as [|c chunks IH]; intros acc.
  - change (acc = acc ++ ""). by rewrite append_empty_r.
  - rewrite concat_cons. simpl fold_left.
    by rewrite IH, append_associative.
Qed.

(** The loop takes no more steps than its budget. *)
Lemma run_steps_bounded {T} (w : Ai.world T) (bound : T) (budget : nat) :
  forall context, Ai.steps (Ai.run_steps w bound budget context) <= budget.
Proof.
  induction budget as [|budget IH]; intros context; simpl; [lia|].
  destruct (Ai.llm w context); simpl; try lia.
  specialize (IH (context ++ [Ai.assistant_message fragments;
                              Ai.tool_message name
                                (Ai.dispatch w bound name args)])%list).
  lia.
Qed.

(** C7.  For a stored session and a non-empty message and key, the chat
    route makes one [streamText] call. Its options carry the message as
    prompt, the tool set of the session, at most 10 steps, the fixed
    system instruction and the temperature 0.7. The stream of that call
    is produced in at most 10 steps, and when it ends without an error the
    response text is the concatenation of its fragments; when it ends with
    an error, the response reports that error. The state is unchanged. *)
Theorem chat_invokes_model_once (w : Ai.world VercelAITools)
  (m k : string) (s : server) (session : Session) :
  userSessions s !! k = Some session ->
  m <> "" -> k <> "" ->
  let o := chat_options m session in
  let stream := Ai.streamText w o in
  invocations (events (chat w m k s)) = [o] /\
  Ai.prompt o = m /\
  Ai.tools o = tools session /\
  Ai.maxSteps o = 10 /\
  Ai.system o = chat_system /\
  Ai.temperature o = Number (Fixed false 7 1) /\
  Ai.steps stream <= 10 /\
  (Ai.failure stream = None ->
   result (chat w m k s)
   = Returned (res_json (chat_response
                           (String.concat "" (Ai.fragments stream))))) /\
  (forall e, Ai.failure stream = Some e ->
   result (chat w m k s)
   = Returned (res_status_json 500 (error (Js.message e)))) /\
  state (chat w m k s) = s.
Proof.
  intros Hk Hm Hk0 o stream.
  destruct (chat_session w m k s session (falsy_non_empty m k Hm Hk0) Hk)
    as (Hres & Hst & Hinv).
  fold o in Hres, Hinv. fold stream in Hres.
  repeat (split; [first [exact Hinv | reflexivity]|]).
  split; [apply (run_steps_bounded w (tools session) 10)|].
  split; [|split; [|exact Hst]].
  - intros Hnone. rewrite Hres, Hnone, fold_left_append. reflexivity.
  - intros e He. rewrite Hres, He. reflexivity.
Qed.


(** C7 at the first chat of [walletA], with a model that answers at
    once. *)
Lemma chat_invokes_model_once_witness :
  invocations
    (events (chat Samples.fixed_reply "what is my balance?" "walletA"
               Samples.connected))
  = [chat_options "what is my balance?" Samples.session_A] /\
  result (chat Samples.fixed_reply "what is my balance?" "walletA"
            Samples.connected)
  = Returned (res_json (chat_response "Your balance is 1.5 SOL")).
Proof.
  destruct (chat_invokes_model_once Samples.fixed_reply
              "what is my balance?" "walletA" Samples.connected
              Samples.session_A)
    as (Hinv & _ & _ & _ & _ & _ & _ & Hres & _);
    [vm_compute; reflexivity|discriminate|discriminate|].
  split; [exact Hinv|]. apply Hres. reflexivity.
Defined.

(** The options [runChat] builds have the same cap and temperature, so a
    turn of the command-line agent takes at most 10 steps as well. *)
Lemma runChat_options_bounded {T} (w : Ai.world T) (tools : T)
  (userInput : string) :
  let o := ShiftAgent.runChat_options tools userInput in
  Ai.prompt o = userInput /\ Ai.tools o = tools /\
  Ai.maxSteps o = 10 /\ Ai.temperature o = Number (Fixed false 7 1) /\
  Ai.steps (Ai.streamText w o) <= 10.
Proof.
  intros o. repeat (split; [reflexivity|]).
  apply (run_steps_bounded w tools 10).
Qed.

End ServerFacts.

(** ** End-to-end scenarios *)

Module Scenarios.
Import Js Eff PriceCache Server.

(** After the first refresh on the sample feed, the price of BTC is
    50000. *)
Example first_refresh_BTC :
  usd <$> price_entry
            (result (getPrice "BTC"
               (refresh [Samples.attempt_at 0 Samples.feed]
                  new_PriceCacheService)))
  = Some (Num (of_Z 50000)).
Proof. vm_compute. reflexivity. Qed.

(** A refresh that fails keeps the entries of the one before. *)
Example offline_keeps_entries :
  refresh [Samples.attempt_at 0 Samples.feed; Samples.attempt_offline 3600000]
    new_PriceCacheService
  = refresh [Samples.attempt_at 0 Samples.feed] new_PriceCacheService.
Proof. vm_compute. reflexivity. Qed.

(** Without a chat message the model is not reached, even when the
    wallet is connected. *)
Example chat_without_message :
  chat Samples.fixed_reply "" "walletA" Samples.connected
  = (Returned MissingParameter, Samples.connected,
     [console_log "1. Received chat request:";
      console_error "2. Missing message or public key";
      console_error "Error in chat endpoint:"]).
Proof. vm_compute. reflexivity. Qed.

(** A model that never stops asking for tools is cut off after 10
    steps. *)
Example budget_exhausted :
  Ai.steps (Ai.streamText Samples.always_calls
              (chat_options "swap everything" Samples.session_A))
  = 10.
Proof. vm_compute. reflexivity. Qed.

(** The rows of the sample portfolio: 123.45678 USDC is worth 123.46,
    BONK, whose lookup throws, 0, and 40 JUP at 0.5 are worth 20. *)
Example sample_rows :
  map Snapshot.usdValue
    (token_rows Samples.holdings (Wallet.tokens Samples.held))
  = [Number (Fixed false 12346 2); zero; of_Z 20].
Proof. vm_compute. reflexivity. Qed.

(** A failure of the SOL price query, unlike that of a token price
    lookup, fails the whole request. *)
Example sol_price_failure :
  result (get_portfolio Samples.pyth_down "walletA" Samples.connected)
  = Returned (res_status_json 500 (error "pyth unavailable")).
Proof. vm_compute. reflexivity. Qed.

(** [toFixed] rounds the binary value: 1.005 is below the decimal 1.005. *)
Example toFixed_1_005 :
  toFixed (Number (Fixed false 1005 3)) 2 = Fixed false 100 2.
Proof. vm_compute. reflexivity. Qed.

End Scenarios.

(* ===================================================================== *)
(** * Further properties *)
(* ===================================================================== *)

(** ** The price cache *)

Module PriceCacheMore.
Import Js Eff PriceCache Observed PriceCacheFacts.

(** The effects of an attempt, by what the request brings. *)
Lemma updatePrices_events att this :
  events (updatePrices att this)
  = match payload att with
    | Some data =>
        ([console_log "Updating price cache..."; http_get coingecko_url;
          console_log "Raw CoinGecko Response:"]
         ++ match data with
            | Undefined | Null =>
                [console_error "Failed to update price cache:"]
            | _ =>
                if passes_validation data then []
                else [console_error "Invalid response format from CoinGecko:"]
            end)%list
    | None =>
        [console_log "Updating price cache..."; http_get coingecko_url;
         console_error "Failed to update price cache:"]
    end.
Proof.
  unfold updatePrices, payload, fetch.
  destruct (fetched att) as [[j]|e]; [|reflexivity].
  destruct j as [data|e]; [|reflexivity].
  cbv beta iota delta [json].
  destruct (passes_validation data) eqn:Hv.
  - destruct (passes_validation_object _ Hv)
      as (fields & b & e & s & -> & Hb & Tb & He & Te & Hs & Ts).
    eff_run. rewrite invalid_format_object, Hv. cbn [negb]. eff_run.
    rewrite (entry_of_quoted _ _ _ _ _ Hb Tb). eff_run.
    rewrite (entry_of_quoted _ _ _ _ _ He Te). eff_run.
    rewrite (entry_of_quoted _ _ _ _ _ Hs Ts). reflexivity.
  - destruct data as [| | | | | |fields]; try reflexivity.
    eff_run. rewrite invalid_format_object, Hv. reflexivity.
Qed.

(** X1.  Every refresh attempt makes one HTTP request, to the CoinGecko
    URL, whatever comes of it; it prints one line on the error console
    when it does not succeed and none when it does. The line tells an
    invalid payload from a request, a body or a payload that made the
    code throw. *)
Theorem attempt_requests_once_and_reports (att : attempt)
  (this : PriceCacheService) :
  let evs := events (updatePrices att this) in
  requests evs = [coingecko_url] /\
  (error_lines evs = [] <-> succeeds att = true) /\
  error_lines evs
  = match payload att with
    | None | Some Undefined | Some Null => ["Failed to update price cache:"]
    | Some data =>
        if passes_validation data then []
        else ["Invalid response format from CoinGecko:"]
    end.
Proof.
  intros evs. unfold evs. rewrite updatePrices_events. unfold succeeds.
  destruct (payload att) as [data|]; [|by repeat split].
  destruct data; simpl;
    try (destruct (passes_validation _) eqn:Hv; by repeat split);
    by repeat split.
Qed.

(** X2.  A successful attempt stores, under BTC, ETH and SOL, the [usd]
    and [usd_24h_change] of the payload's bitcoin, ethereum and solana
    objects, each with its own clock reading, whatever the cache held
    before. *)
Theorem successful_refresh_installs (att : attempt)
  (this : PriceCacheService) :
  succeeds att = true ->
  let after := state (updatePrices att this) in
  let shown sym := price_entry (result (getPrice sym after)) in
  shown "BTC"
  = Some {| usd := quoted (data_of att) "bitcoin" "usd";
            usd_24h_change := quoted (data_of att) "bitcoin" "usd_24h_change";
            last_updated := now_BTC att |} /\
  shown "ETH"
  = Some {| usd := quoted (data_of att) "ethereum" "usd";
            usd_24h_change := quoted (data_of att) "ethereum" "usd_24h_change";
            last_updated := now_ETH att |} /\
  shown "SOL"
  = Some {| usd := quoted (data_of att) "solana" "usd";
            usd_24h_change := quoted (data_of att) "solana" "usd_24h_change";
            last_updated := now_SOL att |} /\
  dom (cache after) = list_to_set symbols.
Proof.
  intros Hok after shown. unfold shown, after, data_of.
  rewrite (proj2 (updatePrices_refreshed this att)).
  destruct (refreshed_successful att this Hok) as (data & -> & _ & ->).
  do 3 (split; [reflexivity|]). apply installed_dom.
Qed.

(** X2 at the sample feed, over a cache that held a negative price. *)
Lemma successful_refresh_installs_witness :
  price_entry
    (result (getPrice "ETH"
       (state (updatePrices (Samples.attempt_at 1000 Samples.feed)
                 (refresh [Samples.attempt_at 0 Samples.feed_negative]
                    new_PriceCacheService)))))
  = Some {| usd := Num (of_Z 3000); usd_24h_change := Num (of_Z (-2));
            last_updated := 1250 |}.
Proof.
  apply (successful_refresh_installs (Samples.attempt_at 1000 Samples.feed)).
  reflexivity.
Defined.

(** The last success of a series, one attempt at a time. *)
Lemma last_success_cons att atts :
  last_success (att :: atts)
  = match last_success atts with
    | Some a => Some a
    | None => if succeeds att then Some att else None
    end.
Proof.
  unfold last_success. simpl.
  destruct (succeeds att).
  - destruct (List.filter succeeds atts) as [|a l]; [reflexivity|].
    rewrite last_cons_cons.
    destruct (last (a :: l)) eqn:E; [reflexivity|].
    by apply last_None in E.
  - by destruct (last (List.filter succeeds atts)).
Qed.

(** The cache after a series of attempts is that of the last success. *)
Lemma refresh_cache (atts : list attempt) (this : PriceCacheService) :
  cache (refresh atts this)
  = match last_success atts with
    | Some att => installed (data_of att) att
    | None => cache this
    end.
Proof.
  revert this. induction atts as [|att atts IH]; intros this; [reflexivity|].
  rewrite refresh_cons, IH, last_success_cons.
  destruct (last_success atts); [reflexivity|].
  destruct (succeeds att) eqn:Hok.
  - unfold data_of.
    by destruct (refreshed_successful att this Hok) as (data & -> & _ & ->).
  - by rewrite (refreshed_unsuccessful _ _ Hok).
Qed.

(** X3.  After any series of attempts the cache is that of the last
    attempt that succeeded: its three entries all come from that one
    payload, and nothing of an earlier payload or of a failed attempt
    remains. With no successful attempt the cache is as at the start. *)
Theorem cache_is_last_success (atts : list attempt)
  (this : PriceCacheService) :
  cache (refresh atts this)
  = match last_success atts with
    | Some att => installed (data_of att) att
    | None => cache this
    end.
Proof. apply refresh_cache. Qed.

End PriceCacheMore.

(** ** The routes of the server *)

Module ServerMore.
Import Js Eff Server Observed ServerFacts.

(** ** The init route *)

(** The events of the init route hold no model or agent call. *)
Lemma init_session_quiet env k s :
  invocations (events (init_session env k s)) = [] /\
  agent_calls (events (init_session env k s)) = [].
Proof.
  unfold init_session, new_SolanaAgentKit, userSessions_set. eff_run.
  destruct (falsy k); split; reflexivity.
Qed.

(** X4.  The init route turns down an empty key with the response
    "Public key is required" and changes nothing. With any other key it
    answers [{ success: true }], creates one agent and stores the session
    under that key alone: the sessions of other keys and the price cache
    stay as they were. Either way it calls neither the model nor an
    agent. *)
Theorem init_session_outcome (env : process_env.t) (k : string)
  (s : server) :
  let r := init_session env k s in
  (k = "" ->
   result r = Returned (res_status_json 500 (error "Public key is required"))
   /\ state r = s) /\
  (k <> "" ->
   result r = Returned (res_json (success true)) /\
   (exists session,
      userSessions (state r) !! k = Some session /\
      identity (agent session) = allocated s /\
      wallet_address (agent session) = k /\
      rpc_url (agent session) = process_env.RPC_URL env /\
      tools session = createVercelAITools (agent session)) /\
   (forall k', k' <> k ->
      userSessions (state r) !! k' = userSessions s !! k') /\
   priceCache (state r) = priceCache s /\
   allocated (state r) = S (allocated s)) /\
  invocations (events r) = [] /\ agent_calls (events r) = [].
Proof.
  intros r. split; [|split; [|apply init_session_quiet]].
  - intros ->. by apply init_session_missing.
  - intros Hk.
    assert (Hf : falsy k = false).
    { apply not_true_is_false. by rewrite falsy_empty. }
    destruct (init_session_stores env k s Hf) as [Hres Hst].
    unfold r. rewrite Hst. split; [exact Hres|]. simpl.
    split; [|split; [|split; reflexivity]].
    + eexists. split; [apply lookup_insert_eq|]. by repeat split.
    + intros k' Hk'. by apply lookup_insert_ne.
Qed.

(** X4 at an empty key. *)
Lemma init_session_outcome_witness :
  result (init_session Samples.env "" Samples.connected)
  = Returned (res_status_json 500 (error "Public key is required")) /\
  state (init_session Samples.env "" Samples.connected) = Samples.connected.
Proof.
  by apply (init_session_outcome Samples.env "" Samples.connected).
Defined.

(** ** What the store holds *)

(** The initialised keys, one request at a time. *)
Lemma initialised_cons r requests :
  initialised (r :: requests)
  = match r with
    | post_init_session _ k =>
        if falsy k then initialised requests
        else {[k]} ∪ initialised requests
    | _ => initialised requests
    end.
Proof.
  unfold initialised. destruct r as [env k| | | |]; try reflexivity.
  simpl. by destruct (falsy k).
Qed.

(** The keys of the store grow by the initialised ones. *)
Lemma serve_dom requests : forall s,
  dom (userSessions (serve requests s))
  = dom (userSessions s) ∪ initialised requests.
Proof.
  induction requests as [|r requests IH]; intros s.
  - unfold initialised. simpl. by rewrite (right_id_L ∅ (∪)).
  - rewrite serve_cons, IH, initialised_cons, handle_state.
    destruct r as [env k| | | |]; try reflexivity.
    destruct (falsy k) eqn:Hk.
    + by rewrite (proj2 (init_session_missing env k s Hk)).
    + rewrite (proj2 (init_session_stores env k s Hk)). simpl.
      rewrite dom_insert_L. by rewrite (comm_L (∪) {[k]}), (assoc_L (∪)).
Qed.

(** From start-up, the keys of the store are the initialised ones. *)
Lemma serve_store (requests : list request) (k : string) :
  is_Some (userSessions (serve requests boot) !! k)
  <-> k ∈ initialised requests.
Proof.
  rewrite <- elem_of_dom, serve_dom. unfold boot. simpl.
  by rewrite dom_empty_L, (left_id_L ∅ (∪)).
Qed.

(** X5.  At any time the store holds a session for exactly the
    non-empty keys that were passed to the init route since start-up: no
    request removes a session, and no other request adds one. *)
Theorem store_holds_initialised (requests : list request) (k : string) :
  is_Some (userSessions (serve requests boot) !! k)
  <-> k ∈ initialised requests.
Proof. apply serve_store. Qed.

(** X6.  The sign-transaction route, for a wallet that was initialised,
    sends the transaction back as it came with [requiresSignature: true];
    for any other wallet it answers "Session not found". It changes
    nothing and calls neither the model nor an agent. *)
Theorem sign_transaction_echoes (requests : list request)
  (transaction : value) (k : string) :
  let s := serve requests boot in
  sign_transaction transaction k s
  = (Returned
       (if bool_decide (k ∈ initialised requests)
        then res_json (signature_request transaction true)
        else res_status_json 500 (error "Session not found")),
     s, []).
Proof.
  intros s. pose proof (serve_store requests k) as Hiff.
  fold s in Hiff. unfold sign_transaction, userSessions_get. eff_run.
  destruct (userSessions s !! k) as [session|] eqn:Hk.
  - rewrite bool_decide_eq_true_2; [reflexivity|]. apply Hiff. eauto.
  - rewrite bool_decide_eq_false_2; [reflexivity|].
    intros Hin. apply Hiff in Hin. by destruct Hin.
Qed.

(** X7.  A chat request with a non-empty message and key reaches the
    model exactly when the key was initialised before; it then makes one
    call, with the tools of the session stored under the key. *)
Theorem chat_reaches_model_iff_initialised (requests : list request)
  (w : Ai.world VercelAITools) (m k : string) :
  m <> "" -> k <> "" ->
  let s := serve requests boot in
  let calls := invocations (events (chat w m k s)) in
  (k ∈ initialised requests ->
   exists session,
     userSessions s !! k = Some session /\
     calls = [chat_options m session]) /\
  (k ∉ initialised requests ->
   calls = [] /\
   result (chat w m k s)
   = Returned (res_status_json 500
                 (error "Session not found - please connect wallet first"))).
Proof.
  intros Hm Hk s calls.
  pose proof (serve_store requests k) as Hiff. fold s in Hiff.
  pose proof (falsy_non_empty m k Hm Hk) as Hf. split.
  - intros Hin. apply Hiff in Hin as [session Hs]. exists session.
    split; [exact Hs|]. by apply (chat_session w m k s session Hf Hs).
  - intros Hout.
    assert (Hs : userSessions s !! k = None).
    { destruct (userSessions s !! k) eqn:E; [|reflexivity].
      exfalso. apply Hout, Hiff. eauto. }
    destruct (chat_no_session w m k s Hf Hs) as (Hres & _ & Hinv). auto.
Qed.

(** X7 at [walletA], initialised before a request without a key. *)
Lemma chat_reaches_model_iff_initialised_witness :
  exists session,
    userSessions
      (serve [post_init_session Samples.env "walletA";
              post_init_session Samples.env ""] boot) !! "walletA"
    = Some session /\
    invocations
      (events (chat Samples.fixed_reply "hello" "walletA"
                 (serve [post_init_session Samples.env "walletA";
                         post_init_session Samples.env ""] boot)))
    = [chat_options "hello" session].
Proof.
  apply (chat_reaches_model_iff_initialised
           [post_init_session Samples.env "walletA";
            post_init_session Samples.env ""]
           Samples.fixed_reply "hello" "walletA");
    [discriminate|discriminate|].
  apply elem_of_list_to_set. simpl. apply list_elem_of_here.
Defined.

(** X8.  In every state reached from start-up, each stored session has
    an agent made for the key it is stored under and tools bound to that
    agent, and no two keys share an agent. *)
Theorem sessions_bound_to_their_key (requests : list request) :
  let s := serve requests boot in
  (forall k session,
     userSessions s !! k = Some session ->
     k <> "" /\
     wallet_address (agent session) = k /\
     bound_to (tools session) = agent session) /\
  (forall k1 k2 session1 session2,
     userSessions s !! k1 = Some session1 ->
     userSessions s !! k2 = Some session2 ->
     k1 <> k2 ->
     agent session1 <> agent session2 /\
     tools session1 <> tools session2).
Proof.
  intros s.
  assert (Hwf : well_formed s) by apply serve_well_formed, boot_well_formed.
  split.
  - intros k session Hk. destruct (Hwf k session Hk) as (Hf & _ & Hw & Ht).
    split; [|split; [exact Hw|by rewrite Ht]].
    intros ->. discriminate Hf.
  - intros k1 k2 s1 s2 H1 H2 Hne.
    destruct (Hwf k1 s1 H1) as (_ & _ & Hw1 & Ht1).
    destruct (Hwf k2 s2 H2) as (_ & _ & Hw2 & Ht2).
    assert (Hag : agent s1 <> agent s2) by congruence.
    split; [exact Hag|]. rewrite Ht1, Ht2. intros [= Heq]. by apply Hag.
Qed.

(** X8 at two wallets initialised one after the other. *)
Lemma sessions_bound_to_their_key_witness :
  exists session1 session2,
    userSessions
      (serve [post_init_session Samples.env "walletA";
              post_init_session Samples.env "walletB"] boot) !! "walletA"
    = Some session1 /\
    userSessions
      (serve [post_init_session Samples.env "walletA";
              post_init_session Samples.env "walletB"] boot) !! "walletB"
    = Some session2 /\
    agent session1 <> agent session2 /\ tools session1 <> tools session2.
Proof.
  eexists. eexists.
  split; [vm_compute; reflexivity|]. split; [vm_compute; reflexivity|].
  apply (sessions_bound_to_their_key
           [post_init_session Samples.env "walletA";
            post_init_session Samples.env "walletB"])
    with (k1 := "walletA") (k2 := "walletB");
    [vm_compute; reflexivity|vm_compute; reflexivity|discriminate].
Defined.

(** Only refresh attempts change the price cache of the server. *)
Lemma serve_priceCache (requests : list request) (s : server) :
  priceCache (serve requests s)
  = PriceCache.refresh (attempts requests) (priceCache s).
Proof.
  revert s. induction requests as [|r requests IH]; intros s; [reflexivity|].
  rewrite serve_cons, IH, handle_state.
  destruct r as [env k| | | |att]; try reflexivity.
  - destruct (falsy k) eqn:Hk.
    + by rewrite (proj2 (init_session_missing env k s Hk)).
    + by rewrite (proj2 (init_session_stores env k s Hk)).
  - simpl attempts. by rewrite PriceCacheFacts.refresh_cons.
Qed.

(** X9.  The price cache of the server is changed by refresh attempts
    alone: after any series of requests it is the cache after the refresh
    attempts among them, whatever the routes were asked in between. *)
Theorem routes_leave_price_cache (requests : list request) (s : server) :
  priceCache (serve requests s)
  = PriceCache.refresh (attempts requests) (priceCache s).
Proof. apply serve_priceCache. Qed.

(** the response of a route, behind [handle] *)
Lemma handle_result {A} (c : eff server effect A) (s : server) (a : A) :
  result (c s) = Returned a ->
  result (bind c (fun res => ret (Some res)) s) = Returned (Some a).
Proof.
  unfold result, bind, ret. destruct (c s) as [[[x|e] s'] ev]; simpl;
    [|discriminate].
  by intros [= ->].
Qed.

(** X10.  No exception leaves a route: each request gets a response,
    with status 200 and no error body, or with status 500 and an error
    body. *)
Theorem every_route_answers (r : request) (s : server) :
  match r with
  | price_refresh _ => result (handle r s) = Returned None
  | _ =>
      exists res,
        result (handle r s) = Returned (Some res) /\
        well_formed_response res
  end.
Proof.
  destruct r as [env k|w m k|t k|a k|att]; unfold handle.
  - destruct (falsy k) eqn:Hk.
    + eexists. split;
        [apply handle_result, (init_session_missing env k s Hk)|].
      right. simpl. eauto.
    + eexists. split;
        [apply handle_result, (init_session_stores env k s Hk)|].
      left. by split.
  - destruct (falsy m || falsy k) eqn:Hf.
    + eexists. split;
        [apply handle_result, (chat_missing_parameter w m k s Hf)|].
      right. unfold MissingParameter. simpl. eauto.
    + destruct (userSessions s !! k) as [session|] eqn:Hk.
      * eexists. split;
          [apply handle_result, (chat_session w m k s session Hf Hk)|].
        destruct (Ai.failure _); [right; simpl; eauto|left; by split].
      * eexists. split;
          [apply handle_result, (chat_no_session w m k s Hf Hk)|].
        right. simpl. eauto.
  - assert (Hres : result (sign_transaction t k s)
                   = Returned match userSessions s !! k with
                              | Some _ => res_json (signature_request t true)
                              | None =>
                                  res_status_json 500
                                    (error "Session not found")
                              end).
    { unfold sign_transaction, userSessions_get. eff_run.
      by destruct (userSessions s !! k). }
    eexists. split; [apply handle_result, Hres|].
    destruct (userSessions s !! k); [left; by split|right; simpl; eauto].
  - eexists. split; [apply handle_result, (get_portfolio_run a k s)|].
    destruct (userSessions s !! k); [|right; simpl; eauto].
    destruct (get_token_balance a); [|right; simpl; eauto].
    destruct (getPythPriceFeedID a "SOL"); [|right; simpl; eauto].
    destruct (getPythPrice a _); [left; by split|right; simpl; eauto].
  - destruct (PriceCacheFacts.updatePrices_refreshed (priceCache s) att)
      as [Hres _].
    unfold on_priceCache. eff_run. unfold result in Hres.
    destruct (PriceCache.updatePrices att (priceCache s)) as [[res c] ev].
    simpl in Hres. by subst.
Qed.

(** X11.  The chat route answers with status 200 exactly when message and
    key are non-empty, a session is stored under the key, and the stream
    of the model ends without an error. *)
Theorem chat_succeeds_iff (w : Ai.world VercelAITools) (m k : string)
  (s : server) :
  (exists res, result (chat w m k s) = Returned res /\ status res = 200)
  <-> m <> "" /\ k <> "" /\
      exists session,
        userSessions s !! k = Some session /\
        Ai.failure (Ai.streamText w (chat_options m session)) = None.
Proof.
  split.
  - intros (res & Hres & Hst).
    destruct (falsy m || falsy k) eqn:Hf.
    { rewrite (proj1 (chat_missing_parameter w m k s Hf)) in Hres.
      injection Hres as <-. discriminate Hst. }
    apply orb_false_elim in Hf as [Hm Hk].
    split; [intros ->; discriminate Hm|].
    split; [intros ->; discriminate Hk|].
    assert (Hf : falsy m || falsy k = false) by (by rewrite Hm, Hk).
    destruct (userSessions s !! k) as [session|] eqn:Hs.
    + exists session. split; [reflexivity|].
      rewrite (proj1 (chat_session w m k s session Hf Hs)) in Hres.
      destruct (Ai.failure _); [|reflexivity].
      injection Hres as <-. discriminate Hst.
    + rewrite (proj1 (chat_no_session w m k s Hf Hs)) in Hres.
      injection Hres as <-. discriminate Hst.
  - intros (Hm & Hk & session & Hs & Hnone).
    eexists. split.
    + rewrite (proj1 (chat_session w m k s session
                        (falsy_non_empty m k Hm Hk) Hs)), Hnone.
      reflexivity.
    + reflexivity.
Qed.

(** The agent calls of a list of events, event by event. *)
Lemma agent_calls_app evs1 evs2 :
  agent_calls (evs1 ++ evs2)%list
  = (agent_calls evs1 ++ agent_calls evs2)%list.
Proof. apply omap_app. Qed.

Lemma agent_calls_cons ev evs :
  agent_calls (ev :: evs)
  = match ev with
    | agent_call on method => (on, method) :: agent_calls evs
    | _ => agent_calls evs
    end.
Proof. by destruct ev. Qed.

(** The callback of the token list asks for a price unless the token is
    USDC. *)
Lemma format_token_calls a session i t s :
  exists evs,
    format_token a session i t s
    = (Returned (token_row_of (fetchTokenPrice a i (Wallet.tokenAddress t)) t),
       s, evs) /\
    agent_calls evs
    = if stable t then [] else [(agent session, "fetchTokenPrice")].
Proof.
  unfold format_token, token_row_of, ask, stable. eff_run.
  destruct (String.eqb (Wallet.symbol t) "USDC"); [eauto|].
  destruct (fetchTokenPrice a i (Wallet.tokenAddress t)); eauto.
Qed.

(** So the list asks once per token that is not USDC. *)
Lemma for_each_calls a session tokens : forall i s,
  exists evs,
    for_each (format_token a session) i tokens s
    = (Returned
         (imap (fun j t =>
                  token_row_of
                    (fetchTokenPrice a (i + j) (Wallet.tokenAddress t)) t)
               tokens), s, evs) /\
    agent_calls evs
    = map (fun _ => (agent session, "fetchTokenPrice"))
          (List.filter (fun t => negb (stable t)) tokens).
Proof.
  induction tokens as [|t tokens IH]; intros i s; [by eexists|].
  destruct (format_token_calls a session i t s) as (ev1 & Hrun & Hc1).
  destruct (IH (S i) s) as (ev2 & Hrest & Hc2).
  simpl. unfold bind at 1. rewrite Hrun. cbv beta iota zeta.
  unfold bind at 1. rewrite Hrest. cbv beta iota zeta delta [ret].
  rewrite Nat.add_0_r. eexists. split.
  - do 4 f_equal. apply imap_ext. intros j x _. simpl.
    by rewrite Nat.add_succ_r.
  - rewrite !agent_calls_app, Hc1, Hc2. simpl.
    rewrite (right_id_L [] (++)). by destruct (stable t).
Qed.

(** X12.  All questions of a portfolio request go to the agent of the
    session stored under the key. When the balance query fails nothing
    else is asked; in a successful request the agent is asked for the
    balances, the SOL feed and the SOL price, and then for one token price
    per token that is not USDC, never for a USDC token. Without a
    session no agent is asked anything. *)
Theorem portfolio_agent_calls (a : agent_world) (k : string) (s : server) :
  let calls := agent_calls (events (get_portfolio a k s)) in
  (userSessions s !! k = None -> calls = []) /\
  (forall session,
     userSessions s !! k = Some session ->
     Forall (fun c => c.1 = agent session) calls /\
     (forall e, get_token_balance a = Thrown e ->
        calls = [(agent session, "get_token_balance")]) /\
     (forall balances feed solPrice,
        get_token_balance a = Returned balances ->
        getPythPriceFeedID a "SOL" = Returned feed ->
        getPythPrice a feed = Returned solPrice ->
        calls
        = ([(agent session, "get_token_balance");
            (agent session, "getPythPriceFeedID");
            (agent session, "getPythPrice")]
           ++ map (fun _ => (agent session, "fetchTokenPrice"))
                (List.filter (fun t => negb (stable t))
                   (Wallet.tokens balances)))%list)).
Proof.
  intros calls.
  assert (Hcalls :
    calls
    = match userSessions s !! k with
      | None => []
      | Some session =>
          (agent session, "get_token_balance") ::
          match get_token_balance a with
          | Thrown _ => []
          | Returned balances =>
              (agent session, "getPythPriceFeedID") ::
              match getPythPriceFeedID a "SOL" with
              | Thrown _ => []
              | Returned feed =>
                  (agent session, "getPythPrice") ::
                  match getPythPrice a feed with
                  | Thrown _ => []
                  | Returned _ =>
                      map (fun _ => (agent session, "fetchTokenPrice"))
                        (List.filter (fun t => negb (stable t))
                           (Wallet.tokens balances))
                  end
              end
          end
      end).
  { unfold calls, get_portfolio, userSessions_get, ask. eff_run.
    destruct (userSessions s !! k) as [session|]; [|reflexivity].
    destruct (get_token_balance a) as [balances|e]; [|reflexivity].
    destruct (getPythPriceFeedID a "SOL") as [feed|e]; [|reflexivity].
    destruct (getPythPrice a feed) as [solPrice|e]; [|reflexivity].
    destruct (for_each_calls a session (Wallet.tokens balances) 0 s)
      as (evs & -> & Hc).
    unfold on_priceCache. rewrite !PriceCacheFacts.getPrice_run.
    cbv beta iota zeta. simpl map.
    fold (@app effect). rewrite !agent_calls_cons, agent_calls_app, Hc.
    rewrite ?agent_calls_cons. unfold agent_calls at 1. simpl omap.
    by rewrite (right_id_L [] (++)). }
  split.
  - intros Hk. by rewrite Hcalls, Hk.
  - intros session Hk. rewrite Hcalls, Hk. split; [|split].
    + repeat (first [ apply Forall_nil_2
                    | apply Forall_cons; split; [reflexivity|]
                    | match goal with
                      | |- context [match ?x with _ => _ end] => destruct x
                      end ]).
      apply Forall_forall. intros c Hc.
      apply list_elem_of_fmap in Hc as (t & -> & _). reflexivity.
    + intros e ->. reflexivity.
    + intros balances feed solPrice -> -> ->. reflexivity.
Qed.

(** X13.  The watchlist of a portfolio response shows the payload of the
    last refresh attempt that succeeded before the request: for each of
    BTC, ETH and SOL the [usd] and [usd_24h_change] of that payload, with
    0 in the place of a value that is missing or falsy. When no attempt
    has succeeded, all six numbers are 0. *)
Theorem watchlist_shows_last_refresh (requests : list request)
  (a : agent_world) (k : string) (snapshot : Snapshot.response) :
  result (get_portfolio a k (serve requests boot))
  = Returned (res_json (portfolio snapshot)) ->
  let shown id :=
    match last_success (attempts requests) with
    | Some att =>
        {| Snapshot.price := or_zero (PriceCache.quoted (data_of att) id "usd");
           Snapshot.change :=
             or_zero (PriceCache.quoted (data_of att) id "usd_24h_change") |}
    | None =>
        {| Snapshot.price := Num zero; Snapshot.change := Num zero |}
    end in
  Snapshot.BTC (Snapshot.watchlist snapshot) = shown "bitcoin" /\
  Snapshot.ETH (Snapshot.watchlist snapshot) = shown "ethereum" /\
  Snapshot.SOL (Snapshot.watchlist snapshot) = shown "solana".
Proof.
  intros Hres shown.
  destruct (portfolio_snapshot a k _ snapshot Hres)
    as (session & balances & feed & solPrice & _ & _ & _ & _ & ->).
  unfold snapshot_of, shown. cbn [Snapshot.watchlist Snapshot.BTC Snapshot.ETH
    Snapshot.SOL]. rewrite !PriceCacheFacts.getPrice_run. unfold result.
  cbn [fst]. rewrite serve_priceCache.
  rewrite PriceCacheMore.refresh_cache.
  destruct (last_success (attempts requests)) as [att|]; by repeat split.
Qed.

(** X13 after one successful refresh on the sample feed. *)
Lemma watchlist_shows_last_refresh_witness :
  Snapshot.BTC
    (Snapshot.watchlist
       (snapshot_of Samples.holdings
          (serve [price_refresh (Samples.attempt_at 0 Samples.feed);
                  post_init_session Samples.env "walletA";
                  price_refresh (Samples.attempt_offline 3600000)] boot)
          Samples.held (of_Z 150)))
  = {| Snapshot.price := Num (of_Z 50000);
       Snapshot.change := Num (Number (Fixed false 15 1)) |}.
Proof.
  apply (watchlist_shows_last_refresh
           [price_refresh (Samples.attempt_at 0 Samples.feed);
            post_init_session Samples.env "walletA";
            price_refresh (Samples.attempt_offline 3600000)]
           Samples.holdings "walletA").
  vm_compute. reflexivity.
Defined.

(** X12 at the sample portfolio: USDC, BONK and JUP are held. *)
Lemma portfolio_agent_calls_witness :
  agent_calls
    (events (get_portfolio Samples.holdings "walletA" Samples.connected))
  = [ (agent Samples.session_A, "get_token_balance");
      (agent Samples.session_A, "getPythPriceFeedID");
      (agent Samples.session_A, "getPythPrice");
      (agent Samples.session_A, "fetchTokenPrice");
      (agent Samples.session_A, "fetchTokenPrice") ].
Proof.
  destruct (portfolio_agent_calls Samples.holdings "walletA"
              Samples.connected) as [_ Hcalls].
  destruct (Hcalls Samples.session_A) as (_ & _ & Hok);
    [vm_compute; reflexivity|].
  apply (Hok Samples.held "sol-usd-feed" (of_Z 150)); reflexivity.
Defined.

(** X20.  With a session stored under the key, a failure of the balance
    query, of the query for the SOL feed or of the query for the SOL price
    fails the whole portfolio request: the response has status 500 and the
    message of that failure, whatever the token price lookups would have
    answered. The state is left as it is. *)
Theorem portfolio_fails_on_core_queries (a : agent_world) (k : string)
  (s : server) (session : Session) (e : exn) :
  userSessions s !! k = Some session ->
  get_token_balance a = Thrown e \/
  (exists balances,
     get_token_balance a = Returned balances /\
     (getPythPriceFeedID a "SOL" = Thrown e \/
      exists feed,
        getPythPriceFeedID a "SOL" = Returned feed /\
        getPythPrice a feed = Thrown e)) ->
  result (get_portfolio a k s)
  = Returned (res_status_json 500 (error (Js.message e))) /\
  state (get_portfolio a k s) = s.
Proof.
  intros Hk Hfail. destruct (get_portfolio_run a k s) as [Hres Hst].
  split; [|exact Hst]. rewrite Hres, Hk.
  destruct Hfail as [-> | (balances & -> & [-> | (feed & -> & ->)])];
    reflexivity.
Qed.

(** X20 at an agent whose SOL price query fails. *)
Lemma portfolio_fails_on_core_queries_witness :
  result (get_portfolio Samples.pyth_down "walletA" Samples.connected)
  = Returned (res_status_json 500 (error "pyth unavailable")).
Proof.
  apply (portfolio_fails_on_core_queries Samples.pyth_down "walletA"
           Samples.connected Samples.session_A (Error "pyth unavailable")).
  - vm_compute. reflexivity.
  - right. exists Samples.held. split; [reflexivity|].
    right. exists "sol-usd-feed". split; reflexivity.
Defined.

End ServerMore.

(** ** The start-up checks *)

Module StartupFacts.
Import Js Eff Server Observed ServerFacts.

(** X14.  The start-up checks pass exactly when OPENAI_API_KEY,
    HELIUS_API_KEY and RPC_URL are all set and non-empty; otherwise the
    error names the first of them, in this order, that is not. Once they
    have passed, every session the init route stores has an agent with the
    RPC URL and the two keys of the environment, none of them empty. *)
Theorem startup_checks_guard_init (env : gmap string string) :
  Startup.checks env
  = match List.find (Env.unset env)
            ["OPENAI_API_KEY"; "HELIUS_API_KEY"; "RPC_URL"] with
    | Some name => Thrown (Error (name ++ " is required"))
    | None => Returned tt
    end /\
  (Startup.checks env = Returned tt ->
   forall k s, k <> "" ->
     exists session,
       userSessions (state (init_session (Startup.read env) k s)) !! k
       = Some session /\
       env !! "RPC_URL" = Some (rpc_url (agent session)) /\
       env !! "OPENAI_API_KEY"
       = Some (OPENAI_API_KEY (config (agent session))) /\
       env !! "HELIUS_API_KEY"
       = Some (HELIUS_API_KEY (config (agent session))) /\
       rpc_url (agent session) <> "" /\
       OPENAI_API_KEY (config (agent session)) <> "" /\
       HELIUS_API_KEY (config (agent session)) <> "").
Proof.
  split.
  - unfold Startup.checks. simpl.
    destruct (Env.unset env "OPENAI_API_KEY"); [reflexivity|].
    destruct (Env.unset env "HELIUS_API_KEY"); [reflexivity|].
    destruct (Env.unset env "RPC_URL"); reflexivity.
  - unfold Startup.checks, Env.unset. intros Hok k s Hk.
    destruct (env !! "OPENAI_API_KEY") as [openai|] eqn:Ho; [|discriminate].
    destruct (falsy openai) eqn:Fo; [discriminate|].
    destruct (env !! "HELIUS_API_KEY") as [helius|] eqn:Hh; [|discriminate].
    destruct (falsy helius) eqn:Fh; [discriminate|].
    destruct (env !! "RPC_URL") as [rpc|] eqn:Hr; [|discriminate].
    destruct (falsy rpc) eqn:Fr; [discriminate|].
    assert (Hf : falsy k = false).
    { apply not_true_is_false. by rewrite falsy_empty. }
    rewrite (proj2 (init_session_stores (Startup.read env) k s Hf)).
    eexists. split; [apply lookup_insert_eq|]. unfold Startup.read.
    rewrite Ho, Hh, Hr. simpl.
    assert (Hne : forall t, falsy t = false -> t <> "").
    { intros t Ht ->. discriminate Ht. }
    repeat split; auto.
Qed.

(** X14 at an environment that has the three variables. *)
Lemma startup_checks_guard_init_witness :
  exists session,
    userSessions
      (state (init_session
                (Startup.read (<["OPENAI_API_KEY" := "sk-test"]>
                                (<["HELIUS_API_KEY" := "helius-test"]>
                                   {["RPC_URL" := "https://rpc.example/one"]})))
                "walletA" boot)) !! "walletA"
    = Some session /\
    rpc_url (agent session) = "https://rpc.example/one".
Proof.
  destruct (startup_checks_guard_init
              (<["OPENAI_API_KEY" := "sk-test"]>
                 (<["HELIUS_API_KEY" := "helius-test"]>
                    {["RPC_URL" := "https://rpc.example/one"]})))
    as [_ Hinit].
  destruct (Hinit eq_refl "walletA" boot) as (session & Hs & Hr & _);
    [discriminate|].
  exists session. split; [exact Hs|].
  change (Some "https://rpc.example/one" = Some (rpc_url (agent session)))
    in Hr.
  by injection Hr.
Defined.

End StartupFacts.

(** ** The command-line agent *)

Module CliFacts.
Import Stdlib.Strings.Ascii.
Import Js Cli.

(** The observations of a list of events, event by event. *)
Lemma invocations_cons {T} (ev : event T) evs :
  invocations (ev :: evs)
  = match ev with
    | stream_text o => o :: invocations evs
    | _ => invocations evs
    end.
Proof. by destruct ev. Qed.

Lemma written_cons {T} (ev : event T) evs :
  written (ev :: evs)
  = match ev with
    | stdout_write t => t :: written evs
    | _ => written evs
    end.
Proof. by destruct ev. Qed.

Lemma errors_cons {T} (ev : event T) evs :
  errors (ev :: evs)
  = match ev with
    | console_error t => t :: errors evs
    | _ => errors evs
    end.
Proof. by destruct ev. Qed.

Lemma invocations_app {T} (evs1 evs2 : list (event T)) :
  invocations (evs1 ++ evs2)%list
  = (invocations evs1 ++ invocations evs2)%list.
Proof. apply omap_app. Qed.

Lemma written_app {T} (evs1 evs2 : list (event T)) :
  written (evs1 ++ evs2)%list = (written evs1 ++ written evs2)%list.
Proof. apply omap_app. Qed.

Lemma errors_app {T} (evs1 evs2 : list (event T)) :
  errors (evs1 ++ evs2)%list = (errors evs1 ++ errors evs2)%list.
Proof. apply omap_app. Qed.

(** [validateEnvironment] by cases on the missing variables. *)
Lemma validateEnvironment_cases {T} (env : gmap string string) :
  (missingVars env = [] -> @validateEnvironment T env = ([], returns)) /\
  (missingVars env <> [] ->
   @validateEnvironment T env
   = (console_error "Error: Required environment variables are not set"
      :: map (fun v =>
                console_error (v ++ "=your_" ++ Env.toLowerCase v ++ "_here"))
             (missingVars env),
      exits 1)).
Proof.
  unfold validateEnvironment. destruct (missingVars env); split; done.
Qed.



(** what the fragments of a stream leave among the events *)
Lemma stdout_fragments {T} (fragments : list string) :
  invocations (map (@stdout_write T) fragments) = [] /\
  written (map (@stdout_write T) fragments) = fragments /\
  errors (map (@stdout_write T) fragments) = [] /\
  @rl_close T ∉ map (@stdout_write T) fragments.
Proof.
  induction fragments as [|f l (Hi & Hw & He & Hc)];
    [repeat split; apply not_elem_of_nil|].
  cbn [map]. rewrite invocations_cons, written_cons, errors_cons, Hi, Hw, He.
  repeat split. intros Hin. apply elem_of_cons in Hin as [Hin|Hin];
    [discriminate|contradiction].
Qed.

(** The loop while every line before the first exit is answered. *)
Lemma turns_forward {T} (w : Ai.world T) (tools : T) (lines : list string) :
  Forall (fun l => answers w tools l = true) (before_exit lines) ->
  let run := turns w tools lines in
  invocations run.1 = map (ShiftAgent.runChat_options tools) (before_exit lines) /\
  written run.1
  = flat_map (fun l => Ai.fragments (Ai.streamText w (ShiftAgent.runChat_options tools l)))
             (before_exit lines) /\
  errors run.1 = [] /\
  (@rl_close T ∉ run.1) /\
  run.2 = if existsb is_exit lines then returns else waits.
Proof.
  induction lines as [|line lines IH]; intros Hall.
  - repeat split. intros Hin. apply list_elem_of_singleton in Hin.
    discriminate.
  - cbn [turns before_exit existsb] in *. fold (is_exit line) in *.
    destruct (is_exit line) eqn:Hexit.
    + repeat split. intros Hin. apply list_elem_of_singleton in Hin.
      discriminate.
    + apply Forall_cons in Hall as [Hline Hall].
      destruct (IH Hall) as (Hi & Hw & He & Hc & Hend).
      unfold answers in Hline.
      destruct (Ai.failure _) eqn:Hf; [discriminate|].
      destruct (turns w tools lines) as [later e].
      cbn [fst snd orb map flat_map] in *.
      destruct (stdout_fragments (T:=T)
                  (Ai.fragments (Ai.streamText w (ShiftAgent.runChat_options tools line))))
        as (Fi & Fw & Fe & Fc).
      rewrite !invocations_cons, !written_cons, !errors_cons.
      rewrite invocations_app, written_app, errors_app, Fi, Fw, Fe.
      rewrite invocations_cons, written_cons, errors_cons, Hi, Hw, He.
      repeat split; [|exact Hend].
      intros Hin. apply elem_of_cons in Hin as [Hin|Hin]; [discriminate|].
      apply elem_of_cons in Hin as [Hin|Hin]; [discriminate|].
      apply elem_of_app in Hin as [Hin|Hin]; [contradiction|].
      apply elem_of_cons in Hin as [Hin|Hin]; [discriminate|contradiction].
Qed.

(** X16.  As long as the model answers, [runChat] passes every line
    typed before the first [exit] to the model, in order, as the prompt of
    one call with the same tools, the empty line included, and writes the
    fragments of each answer to standard output in order. It returns,
    closing the readline interface, when an [exit] line comes, and waits
    for input otherwise; lines after the first [exit] are not read. *)
Theorem runChat_forwards_until_exit {T} (w : Ai.world T) (tools : T)
  (lines : list string) :
  Forall (fun l => answers w tools l = true) (before_exit lines) ->
  let run := runChat w tools lines in
  invocations run.1 = map (ShiftAgent.runChat_options tools) (before_exit lines) /\
  written run.1
  = flat_map (fun l => Ai.fragments (Ai.streamText w (ShiftAgent.runChat_options tools l)))
             (before_exit lines) /\
  errors run.1 = [] /\
  run.2 = (if existsb is_exit lines then returns else waits) /\
  (@rl_close T ∈ run.1 <-> existsb is_exit lines = true).
Proof.
  intros Hall run. destruct (turns_forward w tools lines Hall)
    as (Hi & Hw & He & Hc & Hend).
  unfold run, runChat. destruct (turns w tools lines) as [evs e].
  cbn [fst snd] in *. subst e.
  destruct (existsb is_exit lines); cbn [fst snd].
  - rewrite invocations_cons, written_cons, errors_cons.
    rewrite invocations_app, written_app, errors_app, Hi, Hw, He.
    change (invocations [@rl_close T]) with (@nil (Ai.options T)).
    change (written [@rl_close T]) with (@nil string).
    rewrite !(right_id_L [] (++)).
    do 4 (split; [reflexivity|]). split; [done|].
    intros _. apply list_elem_of_further, elem_of_app. right.
    apply list_elem_of_here.
  - rewrite invocations_cons, written_cons, errors_cons, Hi, Hw, He.
    do 4 (split; [reflexivity|]). split; [|discriminate].
    intros Hin. apply elem_of_cons in Hin as [Hin|Hin];
      [discriminate|contradiction].
Qed.


(** X16 at four lines: two prompts, one of them empty, then [Exit]. *)
Lemma runChat_forwards_until_exit_witness :
  map Ai.prompt
    (invocations
       (runChat CliSamples.moody CliSamples.tools
          ["balance?"; ""; "Exit"; "never read"]).1)
  = ["balance?"; ""] /\
  written
    (runChat CliSamples.moody CliSamples.tools
       ["balance?"; ""; "Exit"; "never read"]).1
  = ["All "; "good."; "All "; "good."] /\
  (runChat CliSamples.moody CliSamples.tools
     ["balance?"; ""; "Exit"; "never read"]).2 = returns.
Proof.
  destruct (runChat_forwards_until_exit CliSamples.moody CliSamples.tools
              ["balance?"; ""; "Exit"; "never read"])
    as (Hi & Hw & _ & Hend & _).
  - repeat constructor.
  - rewrite Hi, Hw, Hend. repeat split.
Defined.

(** The loop up to a line on which the model fails. *)
Lemma turns_failure {T} (w : Ai.world T) (tools : T)
  (pre : list string) (line : string) (post : list string) (e : exn) :
  Forall (fun l => is_exit l = false /\ answers w tools l = true) pre ->
  is_exit line = false ->
  Ai.failure (Ai.streamText w (ShiftAgent.runChat_options tools line))
  = Some e ->
  let run := turns w tools (pre ++ line :: post) in
  run.2 = throws e /\
  invocations run.1
  = map (ShiftAgent.runChat_options tools) (pre ++ [line]) /\
  errors run.1 = [] /\
  (@rl_close T ∉ run.1).
Proof.
  intros Hpre Hline Hfail.
  destruct (stdout_fragments (T:=T)
              (Ai.fragments
                 (Ai.streamText w (ShiftAgent.runChat_options tools line))))
    as (Fi & Fw & Fe & Fc).
  induction Hpre as [|l pre [Hl Hans] _ IH].
  - cbn [app turns map]. fold (is_exit line). rewrite Hline, Hfail.
    cbn [fst snd]. rewrite !invocations_cons, !errors_cons, Fi, Fe.
    repeat split. intros Hin.
    apply elem_of_cons in Hin as [Hin|Hin]; [discriminate|].
    apply elem_of_cons in Hin as [Hin|Hin]; [discriminate|contradiction].
  - cbn [app turns map] in *. fold (is_exit l). rewrite Hl.
    unfold answers in Hans. destruct (Ai.failure _) eqn:Hf; [discriminate|].
    destruct (turns w tools (pre ++ line :: post)) as [later ending].
    cbn [fst snd] in *. destruct IH as (Hend & Hi & He & Hc).
    destruct (stdout_fragments (T:=T)
                (Ai.fragments
                   (Ai.streamText w (ShiftAgent.runChat_options tools l))))
      as (Gi & Gw & Ge & Gc).
    rewrite !invocations_cons, !errors_cons, invocations_app, errors_app.
    rewrite Gi, Ge, invocations_cons, errors_cons, Hi, He.
    repeat split; [exact Hend|]. intros Hin.
    apply elem_of_cons in Hin as [Hin|Hin]; [discriminate|].
    apply elem_of_cons in Hin as [Hin|Hin]; [discriminate|].
    apply elem_of_app in Hin as [Hin|Hin]; [contradiction|].
    apply elem_of_cons in Hin as [Hin|Hin]; [discriminate|contradiction].
Qed.

(** X17.  When the model fails on a line, [runChat] has passed the lines
    before it and that line to the model, prints [Error:] with the
    message of the failure and ends the process with code 1. It reads no
    further line, and it does not close the readline interface. *)
Theorem runChat_exits_on_failure {T} (w : Ai.world T) (tools : T)
  (pre : list string) (line : string) (post : list string) (e : exn) :
  Forall (fun l => is_exit l = false /\ answers w tools l = true) pre ->
  is_exit line = false ->
  Ai.failure (Ai.streamText w (ShiftAgent.runChat_options tools line))
  = Some e ->
  let run := runChat w tools (pre ++ line :: post) in
  run.2 = exits 1 /\
  invocations run.1
  = map (ShiftAgent.runChat_options tools) (pre ++ [line]) /\
  errors run.1 = ["Error: " ++ message e] /\
  (@rl_close T ∉ run.1).
Proof.
  intros Hpre Hline Hfail run.
  destruct (turns_failure w tools pre line post e Hpre Hline Hfail)
    as (Hend & Hi & He & Hc).
  unfold run, runChat.
  destruct (turns w tools (pre ++ line :: post)) as [evs ending].
  cbn [fst snd] in *. subst ending. cbn [fst snd].
  rewrite invocations_cons, errors_cons, invocations_app, errors_app, Hi, He.
  change (invocations [@console_error T ("Error: " ++ message e)])
    with (@nil (Ai.options T)).
  rewrite (right_id_L [] (++)). do 3 (split; [reflexivity|]).
  intros Hin. apply elem_of_cons in Hin as [Hin|Hin]; [discriminate|].
  apply elem_of_app in Hin as [Hin|Hin]; [contradiction|].
  apply list_elem_of_singleton in Hin. discriminate.
Qed.

(** X17 at a failure on the second line. *)
Lemma runChat_exits_on_failure_witness :
  (runChat CliSamples.moody CliSamples.tools
     ["balance?"; "crash"; "exit"]).2 = exits 1 /\
  errors (runChat CliSamples.moody CliSamples.tools
            ["balance?"; "crash"; "exit"]).1
  = ["Error: quota exceeded"].
Proof.
  destruct (runChat_exits_on_failure CliSamples.moody CliSamples.tools
              ["balance?"] "crash" ["exit"] (Error "quota exceeded"))
    as (Hend & _ & He & _); [repeat constructor|reflexivity|reflexivity|].
  split; [exact Hend|exact He].
Defined.

(** the characters whose lower case is a given lower-case letter *)
Lemma lower_letter (c : Ascii.ascii) :
  (Env.lower c = "e"%char <-> c = "e"%char \/ c = "E"%char) /\
  (Env.lower c = "x"%char <-> c = "x"%char \/ c = "X"%char) /\
  (Env.lower c = "i"%char <-> c = "i"%char \/ c = "I"%char) /\
  (Env.lower c = "t"%char <-> c = "t"%char \/ c = "T"%char).
Proof.
  destruct c as [[] [] [] [] [] [] [] []]; vm_compute;
    repeat split; intros; intuition discriminate.
Qed.

(** X18.  The chat ends on a line that reads [exit] in any mix of upper
    and lower case, and on no other line: the line is not trimmed, and the
    empty line is a prompt like any other. *)
Theorem exit_in_any_case (line : string) :
  is_exit line = true <->
  exists c1 c2 c3 c4,
    line = String c1 (String c2 (String c3 (String c4 ""))) /\
    (c1 = "e"%char \/ c1 = "E"%char) /\
    (c2 = "x"%char \/ c2 = "X"%char) /\
    (c3 = "i"%char \/ c3 = "I"%char) /\
    (c4 = "t"%char \/ c4 = "T"%char).
Proof.
  unfold is_exit. rewrite String.eqb_eq. split.
  - destruct line as [|c1 [|c2 [|c3 [|c4 [|c5 rest]]]]]; try discriminate.
    simpl. intros [= H1 H2 H3 H4]. exists c1, c2, c3, c4.
    split; [reflexivity|].
    repeat split; by apply lower_letter.
  - intros (c1 & c2 & c3 & c4 & -> & H1 & H2 & H3 & H4). simpl.
    apply lower_letter in H1, H2, H3, H4. by rewrite H1, H2, H3, H4.
Qed.

(** X19.  [main] starts the chat only with a complete environment: when
    a required variable is missing it ends with code 1 after the report
    of [validateEnvironment], without a prompt and without a call of the
    model; otherwise it prints [Starting Agent...] and goes on as
    [runChat]. *)
Theorem main_requires_environment {T} (env : gmap string string)
  (w : Ai.world T) (tools : T) (lines : list string) :
  (missingVars env <> [] ->
   main env w tools lines = validateEnvironment env /\
   (main env w tools lines).2 = exits 1 /\
   invocations (main env w tools lines).1 = [] /\
   (forall p, @question T p ∉ (main env w tools lines).1)) /\
  (missingVars env = [] ->
   main env w tools lines
   = (console_log "Starting Agent..." :: (runChat w tools lines).1,
      (runChat w tools lines).2)).
Proof.
  destruct (@validateEnvironment_cases T env) as [Hnone Hsome].
  split.
  - intros Hmissing. unfold main. rewrite (Hsome Hmissing).
    do 2 (split; [reflexivity|]). cbn [fst]. rewrite invocations_cons.
    split.
    + generalize (missingVars env). intros missing.
      induction missing as [|x missing IH]; [reflexivity|].
      cbn [map]. by rewrite invocations_cons.
    + intros p Hin.
      apply elem_of_cons in Hin as [Hin|Hin]; [discriminate|].
      apply list_elem_of_fmap in Hin as (v & Hv & _). discriminate.
  - intros Hok. unfold main. rewrite (Hnone Hok).
    by destruct (runChat w tools lines).
Qed.

(** X19 at an incomplete environment. *)
Lemma main_requires_environment_witness :
  (main CliSamples.incomplete CliSamples.moody CliSamples.tools
     ["balance?"; "exit"]).2 = exits 1 /\
  invocations
    (main CliSamples.incomplete CliSamples.moody CliSamples.tools
       ["balance?"; "exit"]).1 = [].
Proof.
  destruct (main_requires_environment CliSamples.incomplete
              CliSamples.moody CliSamples.tools ["balance?"; "exit"])
    as [Hmissing _].
  destruct Hmissing as (_ & Hend & Hinv & _); [discriminate|].
  split; [exact Hend|exact Hinv].
Defined.

End CliFacts.
